(** * Keno time-pattern analyzer (V5): aggregation and scoring core

    Shallow embedding of [live_demos/keno_demo/keno_analyzer_v5.py]
    (class [TimeBasedKenoAnalyzerV5] and the helper functions of the
    patterns module it generates) and of
    [live_demos/keno_demo/format_raw_keno_data.py], with proofs about
    them.

    Conventions of the embedding.
    - Python integers (clock components, ball numbers) are [Z]; lengths
      and occurrence counts are [nat].
    - Python floats are idealised as exact rationals [Q]: rounding of
      binary64 arithmetic is not modelled.  Float literals stand for the
      decimal fraction they are written as ([0.4] is [2 # 5]).
    - A [Counter] / [dict] is an association list in insertion order,
      which is the iteration order of the Python object.
    - [sorted(..., reverse=True)], [Counter.most_common] and
      [heapq.nlargest] are stable: entries with equal keys keep their
      input order.  They are modelled by a stable insertion sort.
    - A pandas row is a record of the two columns the functions read;
      a group of rows is the list of their ball numbers.
    - Printing is left out. *)

From Stdlib Require Import ZArith QArith Qminmax Lqa Lia Ascii String.
From stdpp Require Import base list strings pretty sorting.

Open Scope Z_scope.

(** ** Configuration ([self.V5_CONFIG]) *)

Record confidence_factors := {
  BASE_CONFIDENCE : Q;
  DRAW_MULTIPLIER : Q;
  CONSISTENCY_MULTIPLIER : Q;
  COMBINATION_MULTIPLIER : Q;
  MAX_CONFIDENCE : Q
}.

Record config := {
  DEFAULT_BALL_COUNT : nat;
  TIMING_OFFSET_MINUTES : Z;
  DRAW_INTERVAL_MINUTES : Z;
  MULTIPLIERS : list (nat * Q);
  MIN_DRAWS_FOR_ANALYSIS : nat;
  MAX_RECOMMENDATIONS : nat;
  CONFIDENCE_FACTORS : confidence_factors
}.

Definition V5_CONFIG : config := {|
  DEFAULT_BALL_COUNT := 4;
  TIMING_OFFSET_MINUTES := -5;
  DRAW_INTERVAL_MINUTES := 5;
  MULTIPLIERS := [(1%nat, 18 # 5); (2%nat, 15); (3%nat, 60); (4%nat, 240);
                  (5%nat, 1000); (6%nat, 3800); (7%nat, 12500); (8%nat, 35000)]%Q;
  MIN_DRAWS_FOR_ANALYSIS := 5;
  MAX_RECOMMENDATIONS := 15;
  CONFIDENCE_FACTORS := {|
    BASE_CONFIDENCE := 50;
    DRAW_MULTIPLIER := 3 # 2;
    CONSISTENCY_MULTIPLIER := 2 # 5;
    COMBINATION_MULTIPLIER := 2;
    MAX_CONFIDENCE := 95
  |}
|}.

(** ** Clock strings *)

(** The row columns read by the two time functions. *)
Record row := { Hour : Z; Minute : Z }.

(** Python's [f"{z:02d}"]: decimal, zero-padded to width two, the sign
    counting towards the width. *)
Definition fmt02d (z : Z) : string :=
  if z <? 0 then pretty z
  else if z <? 10 then "0" +:+ pretty z
  else pretty z.

Definition is_digit (a : ascii) : bool :=
  let n := nat_of_ascii a in (48 <=? n)%nat && (n <=? 57)%nat.

Definition digit_val (a : ascii) : Z := Z.of_nat (nat_of_ascii a) - 48.

Definition digit_char (d : Z) : ascii := ascii_of_nat (48 + Z.to_nat d).

(** Reads a string of the exact shape [DD:DD]. *)
Definition parse_hhmm (s : string) : option (Z * Z) :=
  match s with
  | String a (String b (String sep (String c (String d EmptyString)))) =>
      if is_digit a && is_digit b && Ascii.eqb sep ":" && is_digit c && is_digit d
      then Some (10 * digit_val a + digit_val b, 10 * digit_val c + digit_val d)
      else None
  | _ => None
  end.

(** A valid zero-padded 24-hour [HH:MM] string. *)
Definition valid_hhmm (s : string) : bool :=
  match parse_hhmm s with
  | Some (h, m) => (0 <=? h) && (h <=? 23) && (0 <=? m) && (m <=? 59)
  | None => false
  end.

(** ** [_apply_timing_correction] *)

Definition _apply_timing_correction (self : config) (r : row) : string :=
  let hour := Hour r in
  let minute := Minute r in
  let corrected_minute := minute + TIMING_OFFSET_MINUTES self in
  if corrected_minute <? 0 then
    let corrected_hour := hour - 1 in
    let corrected_minute := 60 + corrected_minute in
    let corrected_hour := if corrected_hour <? 0 then 23 else corrected_hour in
    fmt02d corrected_hour +:+ ":" +:+ fmt02d corrected_minute
  else if corrected_minute >=? 60 then
    let corrected_hour := hour + 1 in
    let corrected_minute := corrected_minute - 60 in
    let corrected_hour := if corrected_hour >=? 24 then 0 else corrected_hour in
    fmt02d corrected_hour +:+ ":" +:+ fmt02d corrected_minute
  else
    let corrected_hour := hour in
    fmt02d corrected_hour +:+ ":" +:+ fmt02d corrected_minute.

(** ** [_create_v5_time_window] *)

Definition _create_v5_time_window (r : row) : string :=
  let hour := Hour r in
  let minute := Minute r in
  let window_start_minute := (minute / 5) * 5 in
  let window_end_minute := window_start_minute + 4 in
  let window_end :=
    if window_end_minute >=? 60 then
      let end_hour := if hour <? 23 then hour + 1 else 0 in
      let window_end_minute := window_end_minute - 60 in
      fmt02d end_hour +:+ ":" +:+ fmt02d window_end_minute
    else
      fmt02d hour +:+ ":" +:+ fmt02d window_end_minute in
  let window_start := fmt02d hour +:+ ":" +:+ fmt02d window_start_minute in
  window_start +:+ "-" +:+ window_end.

(** Integers [lo, lo+1, ..., lo+n-1], for exhaustive checks. *)
Definition Zrange (lo : Z) (n : nat) : list Z :=
  map (fun i => lo + Z.of_nat i) (seq 0 n).

(** ** Numbers *)

Definition QofN (n : nat) : Q := inject_Z (Z.of_nat n).

(** ** [collections.Counter] and [dict], in insertion order *)

Section counter.
Context {K : Type} `{EqDecision K}.

(** [c[k] += n]: an existing key keeps its place, a new key goes last. *)
Fixpoint counter_add (k : K) (n : nat) (c : list (K * nat)) : list (K * nat) :=
  match c with
  | [] => [(k, n)]
  | (k', m) :: c' =>
      if decide (k' = k) then (k', (m + n)%nat) :: c'
      else (k', m) :: counter_add k n c'
  end.

(** [for k in l: c[k] += 1] *)
Definition counter_update (c : list (K * nat)) (l : list K) : list (K * nat) :=
  foldl (fun c k => counter_add k 1 c) c l.

(** [Counter(l)] *)
Definition Counter (l : list K) : list (K * nat) := counter_update [] l.

(** [c[k]], zero for a missing key. *)
Fixpoint counter_get (c : list (K * nat)) (k : K) : nat :=
  match c with
  | [] => 0%nat
  | (k', m) :: c' => if decide (k' = k) then m else counter_get c' k
  end.

(** [d.get(k)] / [k in d] *)
Fixpoint dict_get {V : Type} (d : list (K * V)) (k : K) : option V :=
  match d with
  | [] => None
  | (k', v) :: d' => if decide (k' = k) then Some v else dict_get d' k
  end.

(** [d[k] = v] *)
Fixpoint dict_set {V : Type} (k : K) (v : V) (d : list (K * V)) : list (K * V) :=
  match d with
  | [] => [(k, v)]
  | (k', v') :: d' =>
      if decide (k' = k) then (k', v) :: d' else (k', v') :: dict_set k v d'
  end.
End counter.

(** ** Stable sorting *)

Section sorting.
Context {A : Type} (key : A -> nat).

(** Places [x] in front of the first entry whose key is not larger. *)
Fixpoint insert_desc (x : A) (l : list A) : list A :=
  match l with
  | [] => [x]
  | y :: l' => if (key x <? key y)%nat then y :: insert_desc x l' else x :: l
  end.

(** [sorted(l, key=key, reverse=True)] *)
Definition sorted_desc (l : list A) : list A := foldr insert_desc [] l.
End sorting.

(** The order a descending sort establishes. *)
Definition key_ge {A : Type} (key : A -> nat) (x y : A) : Prop := (key y <= key x)%nat.

(** [sorted(l)] on integers. *)
Fixpoint insert_asc (x : Z) (l : list Z) : list Z :=
  match l with
  | [] => [x]
  | y :: l' => if y <=? x then y :: insert_asc x l' else x :: l
  end.

Definition sorted_asc (l : list Z) : list Z := foldr insert_asc [] l.

(** [c.most_common(n)] *)
Definition most_common {K : Type} (n : nat) (c : list (K * nat)) : list (K * nat) :=
  take n (sorted_desc snd c).

(** [c.most_common()] *)
Definition most_common_all {K : Type} (c : list (K * nat)) : list (K * nat) :=
  sorted_desc snd c.

(** [itertools.combinations(l, k)] *)
Fixpoint combinations {A : Type} (l : list A) (k : nat) {struct l} : list (list A) :=
  match k, l with
  | O, _ => [[]]
  | S _, [] => []
  | S k', x :: l' => map (cons x) (combinations l' k') ++ combinations l' k
  end.

(** ** [_calculate_v5_consistency] *)

Definition _calculate_v5_consistency
    (draws_list : list (list Z)) (number_frequency : list (Z * nat)) : Q :=
  match draws_list with
  | [] => 0
  | _ =>
      let total_draws := length draws_list in
      let total_numbers := sum_list (map length draws_list) in
      let top_appearances := sum_list (map snd (most_common 10 number_frequency)) in
      let consistency :=
        if (0 <? total_numbers)%nat
        then (QofN top_appearances / QofN total_numbers) * 100
        else 0 in
      let frequency_bonus := Qmin (QofN total_draws / 20) 5 in
      Qmin (consistency + frequency_bonus) 100
  end%Q.

(** ** [_calculate_window_consistency_v5] *)

Definition _calculate_window_consistency_v5 (draws_list : list (list Z)) : Q :=
  match draws_list with
  | [] => 0
  | _ =>
      let number_counts := Counter (concat draws_list) in
      let total_draws := length draws_list in
      let very_consistent :=
        length (List.filter (fun count => Qle_bool (QofN total_draws * (2 # 5)) (QofN count))
                            (map snd number_counts)) in
      let somewhat_consistent :=
        length (List.filter (fun count => Qle_bool (QofN total_draws * (1 # 4)) (QofN count))
                            (map snd number_counts)) in
      let consistency_score :=
        match number_counts with
        | [] => 0
        | _ => QofN (very_consistent * 2 + somewhat_consistent)
               / QofN (length number_counts) * 100
        end in
      Qmin consistency_score 100
  end%Q.

(** ** [_find_v5_persistent_numbers] *)

Inductive tier := very_high | high | moderate.

(** The [if]/[elif] chain on [appearance_rate = count / total_draws]. *)
Definition tier_of (total_draws count : nat) : option tier :=
  let appearance_rate := (QofN count / QofN total_draws)%Q in
  if Qle_bool (2 # 5) appearance_rate then Some very_high
  else if Qle_bool (1 # 4) appearance_rate then Some high
  else if Qle_bool (3 # 20) appearance_rate then Some moderate
  else None.

Definition tier_eqb (a b : tier) : bool :=
  match a, b with
  | very_high, very_high | high, high | moderate, moderate => true
  | _, _ => false
  end.

(** [persistent_tiers[t]] after the loop over [frequency_counter.items()]. *)
Definition persistent_tier (t : tier) (total_draws : nat)
    (frequency_counter : list (Z * nat)) : list (Z * nat) :=
  List.filter (fun e => match tier_of total_draws (snd e) with
                        | Some t' => tier_eqb t t'
                        | None => false
                        end) frequency_counter.

Definition _find_v5_persistent_numbers
    (draws_list : list (list Z)) (frequency_counter : list (Z * nat)) : list Z :=
  match draws_list with
  | [] => []
  | _ =>
      let total_draws := length draws_list in
      let all_persistent :=
        persistent_tier very_high total_draws frequency_counter ++
        persistent_tier high total_draws frequency_counter ++
        persistent_tier moderate total_draws frequency_counter in
      map fst (sorted_desc snd all_persistent)
  end.

(** ** [_analyze_v5_combinations] *)

Record combo := {
  numbers : list Z;
  frequency : nat;
  percentage : Q
}.

(** The counting loop over the draws. *)
Definition combination_counter (draws_list : list (list Z)) : list (list Z * nat) :=
  foldl (fun cnt draw =>
           let cnt := counter_update cnt (map sorted_asc (combinations draw 2)) in
           if (3 <=? length draw)%nat
           then counter_update cnt (map sorted_asc (combinations draw 3))
           else cnt)
        [] draws_list.

(** The filtering loop that keeps the combinations seen at least twice. *)
Definition frequent_combos (draws_list : list (list Z)) : list combo :=
  omap (fun e : list Z * nat =>
          let (c, count) := e in
          if (2 <=? count)%nat
          then Some {| numbers := c;
                       frequency := count;
                       percentage := (QofN count / QofN (length draws_list)) * 100 |}
          else None)
       (combination_counter draws_list).

Definition _analyze_v5_combinations (draws_list : list (list Z)) : list combo :=
  if (length draws_list <? 3)%nat then []
  else take 10 (sorted_desc frequency (frequent_combos draws_list)).

(** ** [_calculate_multiplier_potential] *)

Record multiplier_entry := {
  success_rate : Q;
  multiplier : Q;
  expected_value : Q
}.

(** [self.V5_CONFIG['MULTIPLIERS'][ball_count]]; the table has every key
    of [range(1, 9)], the only keys it is indexed with. *)
Definition multiplier_for (self : config) (ball_count : nat) : Q :=
  default 0%Q (dict_get (MULTIPLIERS self) ball_count).

Definition _calculate_multiplier_potential (self : config)
    (number_frequency : list (Z * nat)) (total_draws : nat) : list (nat * multiplier_entry) :=
  map (fun ball_count =>
         let top_numbers := map fst (most_common ball_count number_frequency) in
         match top_numbers with
         | [] =>
             (ball_count, {| success_rate := 0;
                             multiplier := multiplier_for self ball_count;
                             expected_value := 0 |})
         | _ =>
             let avg_frequency :=
               QofN (sum_list (map (counter_get number_frequency) top_numbers))
               / QofN (length top_numbers) in
             let success_rate :=
               if (0 <? total_draws)%nat
               then (avg_frequency / QofN total_draws) * 100 else 0 in
             (ball_count, {| success_rate := success_rate;
                             multiplier := multiplier_for self ball_count;
                             expected_value :=
                               success_rate * multiplier_for self ball_count / 100 |})
         end%Q)
      (seq 1 8).

(** ** [analyze_exact_time_patterns_v5] *)

Record ball_rec := {
  primary : list Z;
  backup : list Z;
  extended : list Z
}.

(** An entry of [self.time_patterns]. *)
Record pattern := {
  total_draws : nat;
  corrected_time : string;
  numbers_frequency : list (Z * nat);
  hot_numbers : list Z;
  ball_recommendations : list (nat * ball_rec);
  consistency_score : Q;
  frequent_combinations : list combo;
  all_draws : list (list Z);
  average_per_draw : Q;
  multiplier_potential : list (nat * multiplier_entry)
}.

(** [l[a:b]] for [0 <= a], [0 <= b]. *)
Definition slice {A : Type} (a b : nat) (l : list A) : list A := drop a (take b l).

(** The loop body for one group; a row of the group is the list of its
    non-missing ball values, in column order. *)
Definition analyze_group (self : config) (corrected_time : string)
    (group : list (list Z)) : pattern :=
  let numbers_at_time := map sorted_asc group in
  let all_numbers := concat numbers_at_time in
  let number_frequency := Counter all_numbers in
  let ball_recommendations :=
    map (fun ball_count =>
           let top_for_count := map fst (most_common (ball_count * 3) number_frequency) in
           (ball_count, {| primary := take ball_count top_for_count;
                           backup := slice ball_count (ball_count * 2) top_for_count;
                           extended := take (ball_count * 3) top_for_count |}))
        (seq 1 8) in
  let consistency_score := _calculate_v5_consistency numbers_at_time number_frequency in
  let frequent_combinations := _analyze_v5_combinations numbers_at_time in
  {| total_draws := length group;
     corrected_time := corrected_time;
     numbers_frequency := number_frequency;
     hot_numbers := map fst (most_common (MAX_RECOMMENDATIONS self) number_frequency);
     ball_recommendations := ball_recommendations;
     consistency_score := consistency_score;
     frequent_combinations := frequent_combinations;
     all_draws := numbers_at_time;
     average_per_draw :=
       match numbers_at_time with
       | [] => 0
       | _ => QofN (length all_numbers) / QofN (length numbers_at_time)
       end%Q;
     multiplier_potential :=
       _calculate_multiplier_potential self number_frequency (length group) |}.

(** ** [analyze_time_window_patterns_v5] *)

(** An entry of [self.time_window_patterns]. *)
Record window_pattern := {
  w_total_draws : nat;
  w_numbers_frequency : list (Z * nat);
  w_hot_numbers : list Z;
  w_consistency_score : Q;
  w_all_draws : list (list Z);
  persistent_numbers : list Z;
  window_combinations : list combo
}.

Definition analyze_window (group : list (list Z)) : window_pattern :=
  let numbers_in_window := map sorted_asc group in
  let all_window_numbers := concat numbers_in_window in
  let window_frequency := Counter all_window_numbers in
  let window_consistency := _calculate_window_consistency_v5 numbers_in_window in
  let persistent_numbers := _find_v5_persistent_numbers numbers_in_window window_frequency in
  {| w_total_draws := length group;
     w_numbers_frequency := window_frequency;
     w_hot_numbers := map fst (most_common 20 window_frequency);
     w_consistency_score := window_consistency;
     w_all_draws := numbers_in_window;
     persistent_numbers := persistent_numbers;
     window_combinations := _analyze_v5_combinations numbers_in_window |}.

(** ** The analyzer object *)

(** The fields of [self] that the recommendation code reads.  Of
    [self.optimal_times] only the keys, in rank order, are kept. *)
Record analyzer := {
  V5 : config;
  time_patterns : list (string * pattern);
  time_window_patterns : list (string * window_pattern);
  optimal_times : list string
}.

(** The grouped frame: [((TimeKey, CorrectedTimeKey), rows)] in the order
    [groupby] yields the groups. *)
Definition time_groups := list ((string * string) * list (list Z)).

Definition analyze_exact_time_patterns_v5 (self : analyzer) (groups : time_groups) : analyzer :=
  foldl (fun self g =>
           let '((time_key, corrected_time), group) := g in
           if (MIN_DRAWS_FOR_ANALYSIS (V5 self) <=? length group)%nat
           then {| V5 := V5 self;
                   time_patterns :=
                     dict_set time_key (analyze_group (V5 self) corrected_time group)
                              (time_patterns self);
                   time_window_patterns := time_window_patterns self;
                   optimal_times := optimal_times self |}
           else self)
        self groups.

Definition analyze_time_window_patterns_v5 (self : analyzer)
    (window_groups : list (string * list (list Z))) : analyzer :=
  foldl (fun self g =>
           let '(window, group) := g in
           if (8 <=? length group)%nat
           then {| V5 := V5 self;
                   time_patterns := time_patterns self;
                   time_window_patterns :=
                     dict_set window (analyze_window group) (time_window_patterns self);
                   optimal_times := optimal_times self |}
           else self)
        self window_groups.

(** ** [_get_v5_ball_recommendations] *)

Definition _get_v5_ball_recommendations (pattern_data : pattern) (ball_count : nat)
    : list (nat * ball_rec) :=
  match dict_get (ball_recommendations pattern_data) ball_count with
  | Some r => [(ball_count, r)]
  | None =>
      let hot_numbers := hot_numbers pattern_data in
      [(ball_count, {| primary := take ball_count hot_numbers;
                       backup := slice ball_count (ball_count * 2) hot_numbers;
                       extended := take (ball_count * 3) hot_numbers |})]
  end.

(** ** [_calculate_v5_confidence] *)

Definition _calculate_v5_confidence (self : analyzer) (pattern_data : pattern)
    (time_key : string) : Q :=
  (let factors := CONFIDENCE_FACTORS (V5 self) in
   let base := BASE_CONFIDENCE factors in
   let draw_boost := Qmin (QofN (total_draws pattern_data) * DRAW_MULTIPLIER factors) 25 in
   let consistency_boost := consistency_score pattern_data * CONSISTENCY_MULTIPLIER factors in
   let combo_boost :=
     QofN (length (frequent_combinations pattern_data)) * COMBINATION_MULTIPLIER factors in
   let timing_boost :=
     if decide (corrected_time pattern_data <> time_key) then 5 else 0 in
   let optimal_boost :=
     if decide (time_key ∈ take 5 (optimal_times self)) then 10 else 0 in
   let total_confidence :=
     base + draw_boost + consistency_boost + combo_boost + timing_boost + optimal_boost in
   Qmin total_confidence (MAX_CONFIDENCE factors))%Q.

(** ** [generate_v5_recommendations] *)

(** An entry of the returned dictionary, without its [strategies] texts. *)
Record recommendation := {
  confidence_level : Q;
  r_corrected_time : string;
  timing_offset : Z;
  r_ball_recommendations : list (nat * ball_rec);
  r_hot_numbers : list Z;
  combination_plays : list combo;
  historical_draws : nat;
  r_consistency_score : Q;
  multiplier_analysis : list (nat * multiplier_entry)
}.

(** Truth value of an optional string / count argument: [None], the empty
    string and zero are false. *)
Definition truthy_str (s : option string) : bool :=
  match s with
  | Some s => negb (String.eqb s "")
  | None => false
  end.

Definition truthy_nat (n : option nat) : bool :=
  match n with
  | Some n => negb (n =? 0)%nat
  | None => false
  end.

Definition generate_v5_recommendations (self : analyzer)
    (target_time : option string) (ball_count : option nat)
    : list (string * recommendation) :=
  let times_to_analyze :=
    if truthy_str target_time then
      match target_time with
      | Some t => if decide (is_Some (dict_get (time_patterns self) t)) then [t] else []
      | None => []
      end
    else take 5 (optimal_times self) in
  foldl (fun recommendations time_key =>
           match dict_get (time_patterns self) time_key with
           | Some pattern_data =>
               let ball_recommendations :=
                 if truthy_nat ball_count
                 then _get_v5_ball_recommendations pattern_data (default 0%nat ball_count)
                 else ball_recommendations pattern_data in
               let confidence := _calculate_v5_confidence self pattern_data time_key in
               dict_set time_key
                 {| confidence_level := confidence;
                    r_corrected_time := corrected_time pattern_data;
                    timing_offset := TIMING_OFFSET_MINUTES (V5 self);
                    r_ball_recommendations := ball_recommendations;
                    r_hot_numbers := take 15 (hot_numbers pattern_data);
                    combination_plays := take 5 (frequent_combinations pattern_data);
                    historical_draws := total_draws pattern_data;
                    r_consistency_score := consistency_score pattern_data;
                    multiplier_analysis := multiplier_potential pattern_data |}
                 recommendations
           | None => recommendations
           end)
        [] times_to_analyze.

(** [V5_CONFIG] with another timing offset. *)
Definition with_offset (offset : Z) : config := {|
  DEFAULT_BALL_COUNT := DEFAULT_BALL_COUNT V5_CONFIG;
  TIMING_OFFSET_MINUTES := offset;
  DRAW_INTERVAL_MINUTES := DRAW_INTERVAL_MINUTES V5_CONFIG;
  MULTIPLIERS := MULTIPLIERS V5_CONFIG;
  MIN_DRAWS_FOR_ANALYSIS := MIN_DRAWS_FOR_ANALYSIS V5_CONFIG;
  MAX_RECOMMENDATIONS := MAX_RECOMMENDATIONS V5_CONFIG;
  CONFIDENCE_FACTORS := CONFIDENCE_FACTORS V5_CONFIG
|}.

(** ** Order of occurrence *)

(** [before a b l]: some occurrence of [a] in [l] is followed, later in
    [l], by an occurrence of [b]. *)
Fixpoint before {A : Type} (a b : A) (l : list A) : Prop :=
  match l with
  | [] => False
  | y :: r => (a = y /\ b ∈ r) \/ before a b r
  end.

(** [precedes a b l]: [a] occurs in [l] ahead of every occurrence of [b],
    that is, the first occurrence of [a] comes before the first of [b]. *)
Definition precedes {A : Type} (a b : A) (l : list A) : Prop :=
  a <> b /\ exists l1 l2, l = l1 ++ a :: l2 /\ b ∉ l1.

(** Number of occurrences of [k] in [l]. *)
Definition occurrences {K : Type} `{EqDecision K} (k : K) (l : list K) : nat :=
  length (filter (fun x => x = k) l).

(** ** Sample data *)

Definition empty_analyzer : analyzer := {|
  V5 := V5_CONFIG;
  time_patterns := [];
  time_window_patterns := [];
  optimal_times := []
|}.

Definition sample_group : list (list Z) :=
  [[1; 2; 3]; [1; 2; 4]; [1; 5; 6]; [2; 7; 8]; [1; 2; 9]].

Definition sample_groups : time_groups := [(("08:03", "07:58"), sample_group)].

(** The analyzer after the exact-time analysis of [sample_groups], with
    its only slot ranked first. *)
Definition sample_analyzer : analyzer :=
  let analyzed := analyze_exact_time_patterns_v5 empty_analyzer sample_groups in
  {| V5 := V5 analyzed;
     time_patterns := time_patterns analyzed;
     time_window_patterns := time_window_patterns analyzed;
     optimal_times := ["08:03"] |}.

(** A window of eight draws in which the number 9 is seen once. *)
Definition sample_window : list (list Z) :=
  [[1; 9]; [1]; [1]; [1]; [1]; [1]; [1]; [1]].

(** A group of five draws in which the numbers 2 and 1 are both seen
    once, 2 first. *)
Definition tie_group : list (list Z) :=
  [[2; 3]; [1; 3]; [4; 3]; [5; 3]; [6; 3]].

(** The normalised subsets one draw contributes to the counter, in the
    order the loop body counts them. *)
Definition draw_subsets (draw : list Z) : list (list Z) :=
  map sorted_asc (combinations draw 2) ++
  (if (3 <=? length draw)%nat then map sorted_asc (combinations draw 3) else []).

(** All counted subsets of a group, in counting order. *)
Definition enumerated_subsets (draws_list : list (list Z)) : list (list Z) :=
  concat (map draw_subsets draws_list).

(** Lexicographic order on number tuples. *)
Fixpoint lex_ltb (a b : list Z) : bool :=
  match a, b with
  | [], [] => false
  | [], _ :: _ => true
  | _ :: _, [] => false
  | x :: a', y :: b' => (x <? y) || ((x =? y) && lex_ltb a' b')
  end.

(** Four draws in which the pairs (3,4) and (1,2) are both seen twice,
    (3,4) first. *)
Definition tie_draws : list (list Z) := [[3; 4]; [1; 2]; [3; 4]; [1; 2]].

(** Three draws of size three sharing the pair (1,2) twice. *)
Definition pair_draws : list (list Z) := [[1; 2; 3]; [1; 2; 4]; [1; 5; 6]].

(** The exact-time consistency score of a group, as the analysis calls
    [_calculate_v5_consistency]: with the counter of the group's numbers. *)
Definition group_consistency (draws_list : list (list Z)) : Q :=
  _calculate_v5_consistency draws_list (Counter (concat draws_list)).

(** The ten most frequent numbers of a group, the ones the score counts. *)
Definition top_numbers (draws_list : list (list Z)) : list Z :=
  (most_common 10 (Counter (concat draws_list))).*1.

(** [top_appearances] and [total_numbers] of the score of a group: the
    observations taken by the ten most frequent numbers, and all
    observations. *)
Definition top_appearances (draws_list : list (list Z)) : nat :=
  sum_list (map snd (most_common 10 (Counter (concat draws_list)))).

Definition total_numbers (draws_list : list (list Z)) : nat :=
  sum_list (map length draws_list).

(** The numbers of a further draw that are among the ten most frequent
    numbers of the group, counted with repetition. *)
Definition hot_hits (draws_list : list (list Z)) (draw : list Z) : nat :=
  length (filter (fun x => x ∈ top_numbers draws_list) draw).

(** Five identical draws of the numbers 1..20, and a further draw that
    repeats the hot number 1 next to nineteen new numbers. *)
Definition full_draw : list Z := Zrange 1 20.
Definition repeated_group : list (list Z) := replicate 5 full_draw.
Definition diluting_draw : list Z := 1 :: Zrange 21 19.

(** ** [export_v5_analysis_results]: global hot and cold numbers *)

(** The two nested loops that add every slot's counts to one counter. *)
Definition global_frequency (self : analyzer) : list (Z * nat) :=
  foldl (fun g p =>
           foldl (fun g (e : Z * nat) => counter_add e.1 e.2 g) g (numbers_frequency p))
        [] (time_patterns self).*2.

(** [l[-n:]] *)
Definition last_n {A : Type} (n : nat) (l : list A) : list A :=
  drop (length l - n) l.

Definition always_hot (self : analyzer) : list Z :=
  (most_common 10 (global_frequency self)).*1.

Definition always_cold (self : analyzer) : list Z :=
  (last_n 10 (most_common_all (global_frequency self))).*1.

(** ** The generated patterns module ([_generate_v5_python_config]) *)

(** The module-level constants the generated helper functions read. *)
Record patterns_module := {
  M_V5_CONFIG : config;
  OPTIMAL_TIMES : list string;
  ALWAYS_HOT_NUMBERS : list Z;
  ALWAYS_COLD_NUMBERS : list Z;
  TIME_PATTERNS : list (string * pattern)
}.

Definition _generate_v5_python_config (self : analyzer) : patterns_module := {|
  M_V5_CONFIG := V5 self;
  OPTIMAL_TIMES := take 10 (optimal_times self);
  ALWAYS_HOT_NUMBERS := always_hot self;
  ALWAYS_COLD_NUMBERS := always_cold self;
  TIME_PATTERNS := take 10 (time_patterns self)
|}.

(** [calculate_v5_confidence] of the generated module. *)
Definition calculate_v5_confidence (m : patterns_module) (time_key : string) : Q :=
  match dict_get (TIME_PATTERNS m) time_key with
  | None => 60
  | Some pattern =>
      (let factors := CONFIDENCE_FACTORS (M_V5_CONFIG m) in
       let base := BASE_CONFIDENCE factors in
       let draw_boost := Qmin (QofN (total_draws pattern) * DRAW_MULTIPLIER factors) 25 in
       let consistency_boost := consistency_score pattern * CONSISTENCY_MULTIPLIER factors in
       let combo_boost :=
         QofN (length (frequent_combinations pattern)) * COMBINATION_MULTIPLIER factors in
       let optimal_boost :=
         if decide (time_key ∈ take 5 (OPTIMAL_TIMES m)) then 10 else 0 in
       let total := base + draw_boost + consistency_boost + combo_boost + optimal_boost in
       Qmin total (MAX_CONFIDENCE factors))%Q
  end.

(** The two shapes of dictionary [get_v5_recommendations] returns. *)
Inductive module_answer :=
  | NoData (error : string) (fallback_numbers : list Z) (confidence : Q)
  | Numbers (primary_numbers backup_numbers extended_numbers : list Z)
            (confidence : Q) (historical_draws : nat) (consistency : Q)
            (multiplier : Q) (combinations : list combo) (timing_corrected : bool).

(** A dictionary key as Python compares it: an integer key never equals
    a string key. *)
Inductive pykey := KInt (n : nat) | KStr (s : string).

#[global] Instance pykey_eq_dec : EqDecision pykey.
Proof. solve_decision. Defined.

(** [json.dumps] writes the integer keys of a dictionary as strings; the
    generated module's [V5_CONFIG] is the dumped text, so there
    [MULTIPLIERS] is keyed by the strings "1" to "8". *)
Definition json_keys {V : Type} (d : list (nat * V)) : list (pykey * V) :=
  (fun e => (KStr (pretty e.1), e.2)) <$> d.

(** [V5_CONFIG["MULTIPLIERS"].get(ball_count, 0)] in the generated
    module, for an integer [ball_count]. *)
Definition module_multiplier (m : patterns_module) (ball_count : nat) : Q :=
  default 0%Q (dict_get (json_keys (MULTIPLIERS (M_V5_CONFIG m))) (KInt ball_count)).

(** [get_v5_recommendations] of the generated module. *)
Definition get_v5_recommendations (m : patterns_module) (time_key : string)
    (ball_count : nat) : module_answer :=
  match dict_get (TIME_PATTERNS m) time_key with
  | None =>
      NoData "No data for specified time"
             (take (ball_count * 2) (ALWAYS_HOT_NUMBERS m)) 60
  | Some pattern =>
      let hot_numbers := take (ball_count * 3) (hot_numbers pattern) in
      let primary_numbers := take ball_count hot_numbers in
      let backup_numbers := slice ball_count (ball_count * 2) hot_numbers in
      let confidence := calculate_v5_confidence m time_key in
      Numbers primary_numbers backup_numbers hot_numbers confidence
              (total_draws pattern) (consistency_score pattern)
              (module_multiplier m ball_count)
              (take 3 (frequent_combinations pattern)) true
  end.

(** [get_optimal_ball_count] of the generated module. *)
Definition get_optimal_ball_count (m : patterns_module) (time_key : string)
    (risk_tolerance : string) : nat :=
  match dict_get (TIME_PATTERNS m) time_key with
  | None => DEFAULT_BALL_COUNT (M_V5_CONFIG m)
  | Some _ =>
      let confidence := calculate_v5_confidence m time_key in
      if String.eqb risk_tolerance "low" then
        if Qle_bool 80 confidence then 3
        else if Qle_bool 70 confidence then 2
        else 1
      else if String.eqb risk_tolerance "high" then
        if Qle_bool 85 confidence then 6
        else if Qle_bool 75 confidence then 5
        else 4
      else
        if Qle_bool 80 confidence then 4
        else if Qle_bool 70 confidence then 3
        else 2
  end%nat.

(** All numbers of a counter, most frequent first. *)
Definition ranking (c : list (Z * nat)) : list Z := (most_common_all c).*1.

(** The dictionary entry [generate_v5_recommendations] builds for one
    slot (the body of its loop). *)
Definition recommendation_entry (self : analyzer) (ball_count : option nat)
    (time_key : string) (pattern_data : pattern) : recommendation :=
  {| confidence_level := _calculate_v5_confidence self pattern_data time_key;
     r_corrected_time := corrected_time pattern_data;
     timing_offset := TIMING_OFFSET_MINUTES (V5 self);
     r_ball_recommendations :=
       if truthy_nat ball_count
       then _get_v5_ball_recommendations pattern_data (default 0%nat ball_count)
       else ball_recommendations pattern_data;
     r_hot_numbers := take 15 (hot_numbers pattern_data);
     combination_plays := take 5 (frequent_combinations pattern_data);
     historical_draws := total_draws pattern_data;
     r_consistency_score := consistency_score pattern_data;
     multiplier_analysis := multiplier_potential pattern_data |}.

(** The analyzer after the exact-time analysis of one slot holding
    [repeated_group]: twenty distinct numbers. *)
Definition full_analyzer : analyzer :=
  analyze_exact_time_patterns_v5 empty_analyzer [(("08:03", "07:58"), repeated_group)].

(** * The raw-data cleaner ([format_raw_keno_data.py]) *)

(** The double-quote character. *)
Definition quote_char : ascii := ascii_of_nat 34.

(** Removal of leading, and of trailing, double-quote characters. *)
Fixpoint lstrip_quotes (s : string) : string :=
  match s with
  | String a s' => if Ascii.eqb a quote_char then lstrip_quotes s' else s
  | EmptyString => EmptyString
  end.

Fixpoint rstrip_quotes (s : string) : string :=
  match s with
  | String a s' =>
      match rstrip_quotes s' with
      | EmptyString => if Ascii.eqb a quote_char then EmptyString else String a EmptyString
      | r => String a r
      end
  | EmptyString => EmptyString
  end.

(** [s.strip(q)] for the double-quote character [q]. *)
Definition strip_quotes (s : string) : string := rstrip_quotes (lstrip_quotes s).

(** [s.split(',', 1)] when [s] has a comma: the text before the first
    comma and the text after it. *)
Fixpoint split_first_comma (s : string) : option (string * string) :=
  match s with
  | EmptyString => None
  | String a s' =>
      if Ascii.eqb a "," then Some (EmptyString, s')
      else match split_first_comma s' with
           | Some (x, y) => Some (String a x, y)
           | None => None
           end
  end.

(** The CSV header: three text columns and [Ball 1] to [Ball 20]. *)
Definition header : list string :=
  ["Lottery Issue"; "Date"; "Time"] ++ map (fun i => "Ball " +:+ pretty i) (seq 1 20).

Section cleaner.
(** Python's [str.strip()], which removes surrounding white space. *)
Context (strip : string -> string).

Definition clean_field (s : string) : string := strip_quotes (strip s).

(** The output line of one input row with at least 22 fields. *)
Definition clean_row (row : list string) : list string :=
  let issue := clean_field (nth 0 row EmptyString) in
  let datetime_raw := clean_field (nth 1 row EmptyString) in
  let balls := map clean_field (slice 2 22 row) in
  let '(date_part, time_part) :=
    match split_first_comma datetime_raw with
    | Some (d, t) => (strip d, strip t)
    | None => (EmptyString, EmptyString)
    end in
  [issue; date_part; time_part] ++ balls.

(** The loop over the rows of the reader; skipped rows only print a
    warning. *)
Definition output_lines (rows : list (list string)) : list (list string) :=
  foldl (fun output_lines row =>
           if (22 <=? length row)%nat then
             let balls := map clean_field (slice 2 22 row) in
             if (length balls =? 20)%nat
             then output_lines ++ [clean_row row]
             else output_lines
           else output_lines)
        [header] rows.
End cleaner.

(** Five draws without any repeated number. *)
Definition spread_window : list (list Z) := [[1]; [2]; [3]; [4]; [5]].

(** * Proofs *)

(** ** Clock strings *)

Lemma Zrange_spec lo n z : lo <= z < lo + Z.of_nat n -> In z (Zrange lo n).
Proof.
  intros Hz. unfold Zrange. apply in_map_iff.
  exists (Z.to_nat (z - lo)). split; [lia|].
  apply in_seq. lia.
Qed.

Lemma Zrange_forallb (P : Z -> bool) lo n :
  forallb P (Zrange lo n) = true ->
  forall z, lo <= z < lo + Z.of_nat n -> P z = true.
Proof.
  intros H z Hz. rewrite forallb_forall in H. apply H, Zrange_spec, Hz.
Qed.

Lemma fmt02d_digits z :
  0 <= z <= 99 ->
  fmt02d z = String (digit_char (z / 10)) (String (digit_char (z mod 10)) EmptyString).
Proof.
  intros Hz.
  apply String.eqb_eq.
  apply (Zrange_forallb
           (fun z => String.eqb (fmt02d z)
              (String (digit_char (z / 10)) (String (digit_char (z mod 10)) EmptyString)))
           0 100); [vm_compute; reflexivity | lia].
Qed.

Lemma digit_char_val d : 0 <= d <= 9 -> digit_val (digit_char d) = d.
Proof.
  intros Hd.
  apply Z.eqb_eq.
  apply (Zrange_forallb (fun d => digit_val (digit_char d) =? d) 0 10);
    [vm_compute; reflexivity | lia].
Qed.

Lemma digit_char_is_digit d : 0 <= d <= 9 -> is_digit (digit_char d) = true.
Proof.
  intros Hd.
  apply (Zrange_forallb (fun d => is_digit (digit_char d)) 0 10);
    [vm_compute; reflexivity | lia].
Qed.

Lemma digit_char_inj d e : 0 <= d <= 9 -> 0 <= e <= 9 -> digit_char d = digit_char e -> d = e.
Proof.
  intros Hd He Heq.
  rewrite <- (digit_char_val d), <- (digit_char_val e) by assumption.
  now rewrite Heq.
Qed.

Lemma two_digits z :
  0 <= z <= 99 -> 0 <= z / 10 <= 9 /\ 0 <= z mod 10 <= 9 /\ z = 10 * (z / 10) + z mod 10.
Proof.
  intros Hz.
  pose proof (Z.div_mod z 10 ltac:(lia)). pose proof (Z.mod_pos_bound z 10 ltac:(lia)). lia.
Qed.

Lemma fmt02d_inj y z : 0 <= y <= 99 -> 0 <= z <= 99 -> fmt02d y = fmt02d z -> y = z.
Proof.
  intros Hy Hz. rewrite !fmt02d_digits by assumption. intros Heq.
  destruct (two_digits y Hy) as (Hy1 & Hy2 & Hy3).
  destruct (two_digits z Hz) as (Hz1 & Hz2 & Hz3).
  injection Heq as H1 H2.
  apply digit_char_inj in H1; [| assumption ..].
  apply digit_char_inj in H2; [| assumption ..].
  lia.
Qed.

Lemma parse_hhmm_chars a b c d :
  is_digit a = true -> is_digit b = true -> is_digit c = true -> is_digit d = true ->
  parse_hhmm (String a (String b (String ":" (String c (String d EmptyString))))) =
  Some (10 * digit_val a + digit_val b, 10 * digit_val c + digit_val d).
Proof.
  intros Ha Hb Hc Hd. unfold parse_hhmm. rewrite Ha, Hb, Hc, Hd. reflexivity.
Qed.

Lemma parse_hhmm_fmt h m :
  0 <= h <= 99 -> 0 <= m <= 99 ->
  parse_hhmm (fmt02d h +:+ ":" +:+ fmt02d m) = Some (h, m).
Proof.
  intros Hh Hm. rewrite !fmt02d_digits by assumption.
  destruct (two_digits h Hh) as (Hh1 & Hh2 & Hh3).
  destruct (two_digits m Hm) as (Hm1 & Hm2 & Hm3).
  change (String ?a (String ?b EmptyString) +:+ ":" +:+ ?t)
    with (String a (String b (String ":" t))).
  rewrite parse_hhmm_chars by (apply digit_char_is_digit; assumption).
  rewrite !digit_char_val by assumption.
  f_equal. f_equal; lia.
Qed.

Lemma valid_hhmm_fmt h m :
  0 <= h <= 23 -> 0 <= m <= 59 -> valid_hhmm (fmt02d h +:+ ":" +:+ fmt02d m) = true.
Proof.
  intros Hh Hm. unfold valid_hhmm. rewrite parse_hhmm_fmt by lia.
  repeat (apply andb_true_intro; split); lia.
Qed.

(** ** Timing correction *)

Lemma timing_correction_shape (self : config) (r : row) :
  0 <= Hour r <= 23 -> 0 <= Minute r <= 59 ->
  -60 <= TIMING_OFFSET_MINUTES self <= 60 ->
  exists h m,
    _apply_timing_correction self r = fmt02d h +:+ ":" +:+ fmt02d m
    /\ 0 <= h <= 23 /\ 0 <= m <= 59
    /\ 60 * h + m = (60 * Hour r + Minute r + TIMING_OFFSET_MINUTES self) mod 1440.
Proof.
  intros Hh Hm Ho. unfold _apply_timing_correction.
  set (off := TIMING_OFFSET_MINUTES self) in *.
  destruct (Z.ltb_spec (Minute r + off) 0) as [Hneg | Hnn].
  - destruct (Z.ltb_spec (Hour r - 1) 0) as [Hz | Hz].
    + exists 23, (60 + (Minute r + off)). repeat split; try lia.
      apply (Z.mod_unique _ _ (-1)); lia.
    + exists (Hour r - 1), (60 + (Minute r + off)). repeat split; try lia.
      apply (Z.mod_unique _ _ 0); lia.
  - destruct (Z.geb_spec (Minute r + off) 60) as [Hge | Hlt].
    + destruct (Z.geb_spec (Hour r + 1) 24) as [Hz | Hz].
      * exists 0, (Minute r + off - 60). repeat split; try lia.
        apply (Z.mod_unique _ _ 1); lia.
      * exists (Hour r + 1), (Minute r + off - 60). repeat split; try lia.
        apply (Z.mod_unique _ _ 0); lia.
    + exists (Hour r), (Minute r + off). repeat split; try lia.
      apply (Z.mod_unique _ _ 0); lia.
Qed.

(** C1 (as amended): for every hour in [0,23], minute in [0,59] and every
    configured offset between -60 and 60 minutes, the corrected time key
    is a valid zero-padded 24-hour HH:MM string: it reads back as an hour
    in [0,23] and a minute in [0,59], and it is the input time shifted by
    the offset modulo one day. *)
Theorem timing_correction_valid (self : config) (r : row) :
  0 <= Hour r <= 23 -> 0 <= Minute r <= 59 ->
  -60 <= TIMING_OFFSET_MINUTES self <= 60 ->
  valid_hhmm (_apply_timing_correction self r) = true
  /\ exists h m,
       parse_hhmm (_apply_timing_correction self r) = Some (h, m)
       /\ 0 <= h <= 23 /\ 0 <= m <= 59
       /\ 60 * h + m = (60 * Hour r + Minute r + TIMING_OFFSET_MINUTES self) mod 1440.
Proof.
  intros Hh Hm Ho.
  destruct (timing_correction_shape self r Hh Hm Ho) as (h & m & Heq & Hh' & Hm' & Hmod).
  rewrite Heq. split.
  - apply valid_hhmm_fmt; assumption.
  - exists h, m. split; [apply parse_hhmm_fmt; lia | auto].
Qed.

Lemma timing_correction_valid_witness :
  valid_hhmm (_apply_timing_correction V5_CONFIG {| Hour := 8; Minute := 3 |}) = true
  /\ exists h m,
       parse_hhmm (_apply_timing_correction V5_CONFIG {| Hour := 8; Minute := 3 |}) = Some (h, m)
       /\ 0 <= h <= 23 /\ 0 <= m <= 59
       /\ 60 * h + m = (60 * 8 + 3 + -5) mod 1440.
Proof.
  apply (timing_correction_valid V5_CONFIG {| Hour := 8; Minute := 3 |});
    simpl; lia.
Defined.

(** C1 as stated fails: with offset 61 the input 00:59 is corrected to
    the string 01:60, whose minute part is outside [0,59]. *)
Lemma timing_correction_offset_61_invalid :
  0 <= Hour {| Hour := 0; Minute := 59 |} <= 23
  /\ 0 <= Minute {| Hour := 0; Minute := 59 |} <= 59
  /\ _apply_timing_correction (with_offset 61) {| Hour := 0; Minute := 59 |} = "01:60"
  /\ valid_hhmm (_apply_timing_correction (with_offset 61) {| Hour := 0; Minute := 59 |}) = false.
Proof. repeat split; try (simpl; lia); vm_compute; reflexivity. Qed.

(** The documented example: offset -5 turns 08:03 into 07:58. *)
Example timing_correction_0803 :
  _apply_timing_correction V5_CONFIG {| Hour := 8; Minute := 3 |} = "07:58".
Proof. vm_compute. reflexivity. Qed.

(** ** Five-minute windows *)

Lemma window_label (r : row) :
  0 <= Hour r <= 23 -> 0 <= Minute r <= 59 ->
  _create_v5_time_window r =
    (fmt02d (Hour r) +:+ ":" +:+ fmt02d (Minute r / 5 * 5)) +:+ "-" +:+
    (fmt02d (Hour r) +:+ ":" +:+ fmt02d (Minute r / 5 * 5 + 4)).
Proof.
  intros Hh Hm. unfold _create_v5_time_window.
  pose proof (Z.div_mod (Minute r) 5 ltac:(lia)).
  pose proof (Z.mod_pos_bound (Minute r) 5 ltac:(lia)).
  destruct (Z.geb_spec (Minute r / 5 * 5 + 4) 60); [lia | reflexivity].
Qed.

Lemma window_label_chars h s e :
  0 <= h <= 99 -> 0 <= s <= 99 -> 0 <= e <= 99 ->
  (fmt02d h +:+ ":" +:+ fmt02d s) +:+ "-" +:+ (fmt02d h +:+ ":" +:+ fmt02d e) =
  String (digit_char (h / 10)) (String (digit_char (h mod 10)) (String ":"
  (String (digit_char (s / 10)) (String (digit_char (s mod 10)) (String "-"
  (String (digit_char (h / 10)) (String (digit_char (h mod 10)) (String ":"
  (String (digit_char (e / 10)) (String (digit_char (e mod 10)) EmptyString)))))))))).
Proof.
  intros Hh Hs He. rewrite !fmt02d_digits by assumption. reflexivity.
Qed.

Lemma window_label_inj h s h' s' :
  0 <= h <= 23 -> 0 <= s <= 59 -> 0 <= h' <= 23 -> 0 <= s' <= 59 ->
  (fmt02d h +:+ ":" +:+ fmt02d s) +:+ "-" +:+ (fmt02d h +:+ ":" +:+ fmt02d (s + 4)) =
  (fmt02d h' +:+ ":" +:+ fmt02d s') +:+ "-" +:+ (fmt02d h' +:+ ":" +:+ fmt02d (s' + 4)) ->
  h = h' /\ s = s'.
Proof.
  intros Hh Hs Hh' Hs'. rewrite !window_label_chars by lia. intros Heq.
  destruct (two_digits h ltac:(lia)) as (? & ? & ?).
  destruct (two_digits h' ltac:(lia)) as (? & ? & ?).
  destruct (two_digits s ltac:(lia)) as (? & ? & ?).
  destruct (two_digits s' ltac:(lia)) as (? & ? & ?).
  injection Heq as E1 E2 E3 E4 _ _ _ _.
  apply digit_char_inj in E1, E2, E3, E4; try assumption. lia.
Qed.

(** C9: for every hour in [0,23] and minute in [0,59] the window label
    is HH:SS-HH:EE with SS = floor(minute/5)*5 and EE = SS+4 (never past
    minute 59, so the hour is unchanged); the input minute lies between
    start and end; another time of the day gets the same label exactly
    when it has the same hour and lies in that interval, so the windows
    partition the day; and (9, 47) yields 09:45-09:49. *)
Theorem window_covers_and_tiles :
  (forall r : row,
      0 <= Hour r <= 23 -> 0 <= Minute r <= 59 ->
      let start := Minute r / 5 * 5 in
      _create_v5_time_window r =
        (fmt02d (Hour r) +:+ ":" +:+ fmt02d start) +:+ "-" +:+
        (fmt02d (Hour r) +:+ ":" +:+ fmt02d (start + 4))
      /\ start <= Minute r <= start + 4
      /\ 0 <= start /\ start + 4 <= 59
      /\ forall r' : row,
           0 <= Hour r' <= 23 -> 0 <= Minute r' <= 59 ->
           (_create_v5_time_window r' = _create_v5_time_window r
            <-> Hour r' = Hour r /\ start <= Minute r' <= start + 4))
  /\ _create_v5_time_window {| Hour := 9; Minute := 47 |} = "09:45-09:49".
Proof.
  split; [| vm_compute; reflexivity].
  intros r Hh Hm start.
  pose proof (Z.div_mod (Minute r) 5 ltac:(lia)) as Hdm.
  pose proof (Z.mod_pos_bound (Minute r) 5 ltac:(lia)) as Hmb.
  assert (Hs : start = 5 * (Minute r / 5)) by (unfold start; lia).
  split; [apply window_label; assumption |].
  split; [lia |]. split; [lia |]. split; [lia |].
  intros r' Hh' Hm'.
  pose proof (Z.div_mod (Minute r') 5 ltac:(lia)) as Hdm'.
  pose proof (Z.mod_pos_bound (Minute r') 5 ltac:(lia)) as Hmb'.
  rewrite !window_label by assumption. fold start. split.
  - intros Heq. apply window_label_inj in Heq; lia.
  - intros [Eh Em]. rewrite Eh.
    assert (Minute r' / 5 = Minute r / 5) as -> by lia. reflexivity.
Qed.

Lemma window_covers_and_tiles_witness :
  let r := {| Hour := 23; Minute := 58 |} in
  let start := Minute r / 5 * 5 in
  _create_v5_time_window r = "23:55-23:59"
  /\ start <= Minute r <= start + 4
  /\ (_create_v5_time_window {| Hour := 23; Minute := 55 |} = _create_v5_time_window r
      <-> 23 = Hour r /\ start <= 55 <= start + 4).
Proof.
  destruct window_covers_and_tiles as [H _].
  destruct (H {| Hour := 23; Minute := 58 |}) as (H1 & H2 & _ & _ & H5);
    [simpl; lia | simpl; lia |].
  split; [vm_compute; reflexivity |].
  split; [exact H2 |].
  apply (H5 {| Hour := 23; Minute := 55 |}); simpl; lia.
Defined.

(** ** Order of occurrence *)

Section before_facts.
Context {A : Type}.
Implicit Types (a b : A) (l : list A).

Lemma before_app a b l1 l2 :
  before a b (l1 ++ l2) <-> before a b l1 \/ (a ∈ l1 /\ b ∈ l2) \/ before a b l2.
Proof.
  induction l1 as [| y l1 IH]; simpl.
  - rewrite elem_of_nil. tauto.
  - rewrite IH, elem_of_app, elem_of_cons. split.
    + intros [[-> [Hb | Hb]] | [Hb | [[Ha Hb] | Hb]]]; auto 6.
    + intros [[[-> Hb] | Hb] | [[[-> | Ha] Hb] | Hb]]; auto 6.
Qed.

Lemma before_elem_of a b l : before a b l -> a ∈ l /\ b ∈ l.
Proof.
  induction l as [| y l IH]; simpl; [tauto |].
  rewrite !elem_of_cons. intros [[-> Hb] | H]; [auto | destruct (IH H); auto].
Qed.

Lemma before_take a b n l : before a b (take n l) -> before a b l.
Proof.
  intros H. rewrite <- (take_drop n l). apply before_app. auto.
Qed.

Lemma before_lookup a b l i j :
  (i < j)%nat -> l !! i = Some a -> l !! j = Some b -> before a b l.
Proof.
  revert i j. induction l as [| y l IH]; intros i j Hij Hi Hj; [done |].
  destruct j as [| j]; [lia |]. simpl in Hj.
  destruct i as [| i]; simpl in Hi.
  - left. split; [congruence | eapply list_elem_of_lookup_2; eauto].
  - right. apply (IH i j); [lia | done ..].
Qed.

Lemma before_fmap {B : Type} (f : A -> B) a b l :
  before a b l -> before (f a) (f b) (f <$> l).
Proof.
  induction l as [| y l IH]; simpl; [tauto |].
  intros [[-> Hb] | H]; [left | right; auto].
  split; [done | by apply list_elem_of_fmap_2].
Qed.

Lemma before_fmap_inv {B : Type} (f : A -> B) (x y : B) l :
  before x y (f <$> l) -> exists a b, x = f a /\ y = f b /\ before a b l.
Proof.
  induction l as [| z l IH]; simpl; [tauto |].
  intros [[-> Hb] | H].
  - apply list_elem_of_fmap in Hb as (b & -> & Hb). exists z, b. auto.
  - destruct (IH H) as (a & b & -> & -> & Hab). exists a, b. auto.
Qed.

Lemma precedes_app_r a b l l' : precedes a b l -> precedes a b (l ++ l').
Proof.
  intros (Hne & l1 & l2 & -> & Hb). split; [done |].
  exists l1, (l2 ++ l'). by rewrite <- app_assoc.
Qed.
End before_facts.

(** ** The stable descending sort *)

Section sorting_facts.
Context {A : Type} (key : A -> nat).
Implicit Types (x y : A) (l : list A).

Lemma insert_desc_perm x l : insert_desc key x l ≡ₚ x :: l.
Proof.
  induction l as [| y l IH]; simpl; [done |].
  destruct (key x <? key y)%nat; [| done].
  rewrite IH. apply Permutation_swap.
Qed.

Lemma sorted_desc_perm l : sorted_desc key l ≡ₚ l.
Proof.
  induction l as [| x l IH]; simpl; [done |].
  unfold sorted_desc in *. simpl. by rewrite insert_desc_perm, IH.
Qed.

Lemma sorted_desc_length l : length (sorted_desc key l) = length l.
Proof. by rewrite sorted_desc_perm. Qed.

Lemma sorted_desc_elem_of x l : x ∈ sorted_desc key l <-> x ∈ l.
Proof. by rewrite sorted_desc_perm. Qed.

Lemma insert_desc_elem_of y x l : y ∈ insert_desc key x l <-> y = x \/ y ∈ l.
Proof. by rewrite insert_desc_perm, elem_of_cons. Qed.

Lemma insert_desc_sorted x l :
  StronglySorted (key_ge key) l -> StronglySorted (key_ge key) (insert_desc key x l).
Proof.
  induction 1 as [| y l Hl IH Hy]; simpl.
  - repeat constructor.
  - destruct (Nat.ltb_spec (key x) (key y)) as [Hlt | Hge].
    + constructor; [done |].
      rewrite insert_desc_perm. constructor; [unfold key_ge; lia | done].
    + constructor; [by constructor |].
      constructor; [done |].
      eapply Forall_impl; [exact Hy |]. unfold key_ge. intros. lia.
Qed.

Lemma sorted_desc_sorted l : StronglySorted (key_ge key) (sorted_desc key l).
Proof.
  induction l as [| x l IH]; [constructor |].
  apply insert_desc_sorted, IH.
Qed.

Lemma sorted_before_key x y l :
  StronglySorted (key_ge key) l -> before x y l -> (key y <= key x)%nat.
Proof.
  induction 1 as [| z l Hl IH Hz]; simpl; [tauto |].
  intros [[-> Hy] | H]; [| auto].
  rewrite Forall_forall in Hz. by apply Hz.
Qed.

Lemma insert_desc_before a b x l :
  before a b (insert_desc key x l) ->
  before a b l \/ (a = x /\ b ∈ l) \/ (b = x /\ a ∈ l /\ (key x < key a)%nat).
Proof.
  induction l as [| y l IH]; simpl.
  - rewrite elem_of_nil. tauto.
  - destruct (Nat.ltb_spec (key x) (key y)) as [Hlt | Hge]; simpl.
    + rewrite insert_desc_elem_of, !elem_of_cons.
      intros [[-> [-> | Hb]] | H]; [auto 8 | auto 8 |].
      destruct (IH H) as [? | [[-> ?] | (-> & ? & ?)]]; auto 8.
    + rewrite !elem_of_cons. tauto.
Qed.

(** Stability: entries with equal keys keep their input order. *)
Lemma sorted_desc_stable a b l :
  before a b (sorted_desc key l) -> key a = key b -> before a b l.
Proof.
  induction l as [| x l IH]; simpl; [tauto |].
  intros H Hk. apply insert_desc_before in H.
  rewrite sorted_desc_elem_of in H.
  destruct H as [H | [[-> Hb] | (-> & Ha & Hlt)]]; [auto | auto | lia].
Qed.

Lemma insert_desc_app x l1 l2 :
  Forall (fun y => (key y <= key x)%nat) l2 ->
  insert_desc key x (l1 ++ l2) = insert_desc key x l1 ++ l2.
Proof.
  intros H2. induction l1 as [| y l1 IH]; simpl.
  - destruct H2 as [| z l2 Hz H2]; simpl; [done |].
    destruct (Nat.ltb_spec (key x) (key z)); [lia | done].
  - destruct (key x <? key y)%nat; simpl; [by rewrite IH | done].
Qed.

(** Sorting a concatenation whose first part dominates the second. *)
Lemma sorted_desc_app l1 l2 :
  (forall x y, x ∈ l1 -> y ∈ l2 -> (key y <= key x)%nat) ->
  sorted_desc key (l1 ++ l2) = sorted_desc key l1 ++ sorted_desc key l2.
Proof.
  intros H. induction l1 as [| x l1 IH]; [done |].
  change (insert_desc key x (sorted_desc key (l1 ++ l2)) =
          insert_desc key x (sorted_desc key l1) ++ sorted_desc key l2).
  rewrite IH.
  - apply insert_desc_app. apply Forall_forall. intros y Hy.
    rewrite sorted_desc_elem_of in Hy. apply H; [apply elem_of_cons; by left | done].
  - intros x' y Hx' Hy. apply H; [apply elem_of_cons; by right | done].
Qed.

Lemma sorted_take_drop_key n l x y :
  x ∈ take n (sorted_desc key l) -> y ∈ drop n (sorted_desc key l) ->
  (key y <= key x)%nat.
Proof.
  intros Hx Hy. apply (sorted_before_key x y (sorted_desc key l)).
  - apply sorted_desc_sorted.
  - rewrite <- (take_drop n (sorted_desc key l)). apply before_app. auto.
Qed.

(** The first [k] entries of a descending list carry the largest sum
    of keys among all selections of at most [k] entries. *)
Lemma sorted_take_sum_max l :
  StronglySorted (key_ge key) l ->
  forall (m : list A) (k : nat),
    m ⊆+ l -> (length m <= k)%nat ->
    (sum_list (key <$> m) <= sum_list (key <$> take k l))%nat.
Proof.
  induction 1 as [| x l Hl IH Hx]; intros m k Hm Hk.
  - apply submseteq_nil_r in Hm as ->. csimpl. lia.
  - destruct k as [| k].
    + destruct m; csimpl in *; lia.
    + apply submseteq_cons_r in Hm as [Hm | (m' & Hperm & Hm')].
      * destruct m as [| y m']; [csimpl; lia |].
        assert (Hy : y ∈ l).
        { eapply elem_of_submseteq; [| exact Hm]. apply elem_of_cons. by left. }
        rewrite Forall_forall in Hx. specialize (Hx y Hy). unfold key_ge in Hx.
        assert (Hm' : m' ⊆+ l).
        { transitivity (y :: m'); [by apply submseteq_cons | exact Hm]. }
        csimpl in *. specialize (IH m' k Hm' ltac:(lia)). lia.
      * rewrite Hperm in Hk |- *. csimpl in *.
        specialize (IH m' k Hm' ltac:(lia)). lia.
Qed.
End sorting_facts.

(** ** Counters *)

Section counter_facts.
Context {K : Type} `{EqDecision K}.
Implicit Types (k : K) (n : nat) (c : list (K * nat)) (l : list K).

Lemma before_NoDup_ne {A : Type} (a b : A) (l : list A) :
  NoDup l -> before a b l -> a <> b.
Proof.
  induction 1 as [| y l Hy Hl IH]; simpl; [tauto |].
  intros [[-> Hb] | H]; [| auto]. intros ->. done.
Qed.

Lemma counter_add_keys k n c :
  (counter_add k n c).*1 = if decide (k ∈ c.*1) then c.*1 else c.*1 ++ [k].
Proof.
  induction c as [| [k' m] c IH]; csimpl.
  - destruct (decide (k ∈ [])) as [Hin | _]; [by apply elem_of_nil in Hin | done].
  - destruct (decide (k' = k)) as [-> | Hne]; csimpl.
    + destruct (decide (k ∈ k :: c.*1)) as [_ | Hnin]; [done |].
      exfalso. apply Hnin, elem_of_cons. by left.
    + rewrite IH. destruct (decide (k ∈ c.*1)) as [Hin | Hnin];
        destruct (decide (k ∈ k' :: c.*1)) as [Hin' | Hnin']; try done.
      * exfalso. apply Hnin', elem_of_cons. by right.
      * exfalso. apply elem_of_cons in Hin' as [-> | ?]; done.
Qed.

Lemma counter_add_elem_of_keys k' k n c :
  k' ∈ (counter_add k n c).*1 <-> k' = k \/ k' ∈ c.*1.
Proof.
  rewrite counter_add_keys. destruct (decide (k ∈ c.*1)) as [Hin | Hnin].
  - split; [auto | intros [-> | ?]; done].
  - rewrite elem_of_app, list_elem_of_singleton. tauto.
Qed.

Lemma counter_add_NoDup k n c : NoDup c.*1 -> NoDup (counter_add k n c).*1.
Proof.
  intros Hc. rewrite counter_add_keys. destruct (decide (k ∈ c.*1)); [done |].
  apply NoDup_app. split; [done |]. split; [| apply NoDup_singleton].
  intros x Hx Hx'. apply list_elem_of_singleton in Hx' as ->. done.
Qed.

Lemma counter_get_add k n c k' :
  counter_get (counter_add k n c) k' =
  if decide (k = k') then (counter_get c k' + n)%nat else counter_get c k'.
Proof.
  induction c as [| [k0 m] c IH]; simpl.
  - destruct (decide (k = k')); done.
  - destruct (decide (k0 = k)) as [-> | Hne]; simpl.
    + destruct (decide (k = k')); done.
    + rewrite IH. destruct (decide (k0 = k')) as [-> | ?]; [| done].
      rewrite decide_False; [done | congruence].
Qed.

Lemma counter_add_sum k n c :
  sum_list (counter_add k n c).*2 = (sum_list c.*2 + n)%nat.
Proof.
  induction c as [| [k' m] c IH]; csimpl; [lia |].
  destruct (decide (k' = k)); csimpl; [lia |]. rewrite IH. lia.
Qed.

Lemma counter_add_positive k n c :
  (0 < n)%nat -> Forall (fun e => (0 < e.2)%nat) c ->
  Forall (fun e => (0 < e.2)%nat) (counter_add k n c).
Proof.
  intros Hn. induction 1 as [| [k' m] c Hm Hc IH]; simpl.
  - by repeat constructor.
  - destruct (decide (k' = k)); constructor; simpl in *; auto; lia.
Qed.

Lemma counter_update_snoc c l k :
  counter_update c (l ++ [k]) = counter_add k 1 (counter_update c l).
Proof. unfold counter_update. by rewrite foldl_snoc. Qed.

Lemma counter_update_app c l1 l2 :
  counter_update c (l1 ++ l2) = counter_update (counter_update c l1) l2.
Proof. unfold counter_update. by rewrite foldl_app. Qed.

Lemma counter_update_cons c k l :
  counter_update c (k :: l) = counter_update (counter_add k 1 c) l.
Proof. done. Qed.

Lemma counter_update_elem_of_keys k c l :
  k ∈ (counter_update c l).*1 <-> k ∈ c.*1 \/ k ∈ l.
Proof.
  revert c. induction l as [| x l IH]; intros c.
  - simpl. rewrite elem_of_nil. tauto.
  - rewrite counter_update_cons, IH, counter_add_elem_of_keys, elem_of_cons. tauto.
Qed.

Lemma counter_update_NoDup c l : NoDup c.*1 -> NoDup (counter_update c l).*1.
Proof.
  revert c. induction l as [| x l IH]; intros c Hc; [done |].
  rewrite counter_update_cons. by apply IH, counter_add_NoDup.
Qed.

Lemma occurrences_cons k x l :
  occurrences k (x :: l) = (if decide (x = k) then S (occurrences k l) else occurrences k l).
Proof. unfold occurrences. rewrite filter_cons. by destruct (decide (x = k)). Qed.

Lemma occurrences_app k l1 l2 :
  occurrences k (l1 ++ l2) = (occurrences k l1 + occurrences k l2)%nat.
Proof. unfold occurrences. by rewrite filter_app, length_app. Qed.

Lemma occurrences_pos k l : (0 < occurrences k l)%nat <-> k ∈ l.
Proof.
  induction l as [| x l IH].
  - rewrite elem_of_nil. unfold occurrences. simpl. lia.
  - rewrite occurrences_cons, elem_of_cons.
    destruct (decide (x = k)) as [-> | Hne]; [split; [auto | lia] |].
    rewrite IH. split; [auto | intros [-> | ?]; done].
Qed.

Lemma counter_get_update c l k :
  counter_get (counter_update c l) k = (counter_get c k + occurrences k l)%nat.
Proof.
  revert c. induction l as [| x l IH]; intros c.
  - unfold occurrences. simpl. lia.
  - rewrite counter_update_cons, IH, counter_get_add, occurrences_cons.
    destruct (decide (x = k)); lia.
Qed.

Lemma counter_update_sum c l :
  sum_list (counter_update c l).*2 = (sum_list c.*2 + length l)%nat.
Proof.
  revert c. induction l as [| x l IH]; intros c; [simpl; lia |].
  rewrite counter_update_cons, IH, counter_add_sum. simpl. lia.
Qed.

Lemma counter_update_positive c l :
  Forall (fun e => (0 < e.2)%nat) c ->
  Forall (fun e => (0 < e.2)%nat) (counter_update c l).
Proof.
  revert c. induction l as [| x l IH]; intros c Hc; [done |].
  rewrite counter_update_cons. apply IH, counter_add_positive; [lia | done].
Qed.

Lemma counter_get_entry c k n : NoDup c.*1 -> (k, n) ∈ c -> counter_get c k = n.
Proof.
  induction c as [| [k' m] c IH]; simpl; intros Hnd Hin.
  - by apply elem_of_nil in Hin.
  - apply NoDup_cons in Hnd as [Hk' Hnd].
    apply elem_of_cons in Hin as [Heq | Hin].
    + injection Heq as -> ->. by rewrite decide_True.
    + destruct (decide (k' = k)) as [-> | ?]; [| auto].
      exfalso. apply Hk'. apply list_elem_of_fmap. by exists (k, n).
Qed.

Lemma counter_get_zero c k : k ∉ c.*1 -> counter_get c k = 0%nat.
Proof.
  induction c as [| [k' m] c IH]; simpl; [done |].
  rewrite elem_of_cons. intros Hk.
  destruct (decide (k' = k)) as [-> | ?]; [tauto | apply IH; tauto].
Qed.

Lemma counter_get_elem_of c k :
  k ∈ c.*1 -> (k, counter_get c k) ∈ c.
Proof.
  induction c as [| [k' m] c IH]; simpl; intros Hk.
  - by apply elem_of_nil in Hk.
  - destruct (decide (k' = k)) as [-> | Hne]; [apply elem_of_cons; by left |].
    apply elem_of_cons in Hk as [? | Hk]; [done |].
    apply elem_of_cons. right. auto.
Qed.

(** [Counter(l)]: distinct keys, each with its number of occurrences. *)
Lemma Counter_NoDup l : NoDup (Counter l).*1.
Proof. apply counter_update_NoDup. constructor. Qed.

Lemma Counter_get l k : counter_get (Counter l) k = occurrences k l.
Proof. unfold Counter. by rewrite counter_get_update. Qed.

Lemma Counter_elem_of_keys l k : k ∈ (Counter l).*1 <-> k ∈ l.
Proof.
  unfold Counter. rewrite counter_update_elem_of_keys. simpl.
  rewrite elem_of_nil. tauto.
Qed.

Lemma Counter_entry l k n : (k, n) ∈ Counter l -> n = occurrences k l /\ k ∈ l.
Proof.
  intros Hin. split.
  - rewrite <- Counter_get. symmetry. apply counter_get_entry; [apply Counter_NoDup | done].
  - apply Counter_elem_of_keys. apply list_elem_of_fmap. by exists (k, n).
Qed.

Lemma Counter_sum l : sum_list (Counter l).*2 = length l.
Proof. unfold Counter. by rewrite counter_update_sum. Qed.

(** The keys come in the order of their first occurrence. *)
Lemma Counter_keys_order l k1 k2 :
  before k1 k2 (Counter l).*1 -> precedes k1 k2 l.
Proof.
  revert k1 k2. induction l as [| x l IH] using rev_ind; intros k1 k2.
  - simpl. tauto.
  - unfold Counter. rewrite counter_update_snoc. fold (Counter l).
    intros Hb.
    assert (Hne : k1 <> k2).
    { eapply before_NoDup_ne; [| exact Hb].
      apply counter_add_NoDup, Counter_NoDup. }
    rewrite counter_add_keys in Hb.
    destruct (decide (x ∈ (Counter l).*1)) as [Hin | Hnin].
    + by apply precedes_app_r, IH.
    + apply before_app in Hb as [Hb | [[H1 H2] | Hb]].
      * by apply precedes_app_r, IH.
      * apply list_elem_of_singleton in H2 as ->.
        rewrite Counter_elem_of_keys in H1, Hnin.
        apply list_elem_of_split in H1 as (l1 & l2 & ->).
        split; [done |]. exists l1, (l2 ++ [x]).
        split; [by rewrite <- app_assoc |].
        intros Hx. apply Hnin. apply elem_of_app. by left.
      * simpl in Hb. rewrite elem_of_nil in Hb. tauto.
Qed.
End counter_facts.

(** ** Rationals *)

Lemma QofN_nonneg n : (0 <= QofN n)%Q.
Proof. unfold QofN, Qle. simpl. lia. Qed.

Lemma QofN_pos n : (0 < n)%nat -> (0 < QofN n)%Q.
Proof. intros Hn. unfold QofN, Qlt. simpl. lia. Qed.

Lemma QofN_le m n : (m <= n)%nat -> (QofN m <= QofN n)%Q.
Proof. intros H. unfold QofN, Qle. simpl. lia. Qed.

Lemma QofN_lt_inv m n : (QofN m < QofN n)%Q -> (m < n)%nat.
Proof. unfold QofN, Qlt. simpl. lia. Qed.

Lemma Qdiv_nonneg a b : (0 <= a -> 0 <= b -> 0 <= a / b)%Q.
Proof.
  intros Ha Hb. unfold Qdiv.
  apply Qmult_le_0_compat; [assumption | apply Qinv_le_0_compat; assumption].
Qed.

Lemma Qmin_nonneg a b : (0 <= a -> 0 <= b -> 0 <= Qmin a b)%Q.
Proof. intros Ha Hb. apply Q.min_glb; assumption. Qed.

(** ** Consistency scores *)

Lemma _calculate_v5_consistency_bounds draws_list number_frequency :
  (0 <= _calculate_v5_consistency draws_list number_frequency <= 100)%Q.
Proof.
  unfold _calculate_v5_consistency.
  destruct draws_list as [| d ds]; [split; [apply Qle_refl | discriminate] |].
  split; [| apply Q.le_min_r].
  apply Qmin_nonneg; [| discriminate].
  apply (Qplus_le_compat 0 _ 0).
  - destruct (0 <? _)%nat; [| apply Qle_refl].
    apply Qmult_le_0_compat; [| discriminate].
    apply Qdiv_nonneg; apply QofN_nonneg.
  - apply Qmin_nonneg; [| discriminate].
    apply Qdiv_nonneg; [apply QofN_nonneg | discriminate].
Qed.

Lemma _calculate_window_consistency_v5_bounds draws_list :
  (0 <= _calculate_window_consistency_v5 draws_list <= 100)%Q.
Proof.
  unfold _calculate_window_consistency_v5.
  destruct draws_list as [| d ds]; [split; [apply Qle_refl | discriminate] |].
  split; [| apply Q.le_min_r].
  apply Qmin_nonneg; [| discriminate].
  destruct (Counter _); [apply Qle_refl |].
  apply Qmult_le_0_compat; [| discriminate].
  apply Qdiv_nonneg; apply QofN_nonneg.
Qed.

(** C8: for every group of draws, the empty group and groups without
    any number included, and every frequency counter, the exact-time
    consistency score and the window consistency score both lie in the
    closed interval [0, 100]. *)
Theorem consistency_scores_in_0_100
    (draws_list : list (list Z)) (number_frequency : list (Z * nat)) :
  (0 <= _calculate_v5_consistency draws_list number_frequency <= 100)%Q
  /\ (0 <= _calculate_window_consistency_v5 draws_list <= 100)%Q.
Proof.
  split.
  - apply _calculate_v5_consistency_bounds.
  - apply _calculate_window_consistency_v5_bounds.
Qed.

(** ** Dictionaries *)

Section dict_facts.
Context {K V : Type} `{EqDecision K}.
Implicit Types (k : K) (v : V) (d : list (K * V)).

Lemma dict_get_set k v d k' :
  dict_get (dict_set k v d) k' = if decide (k = k') then Some v else dict_get d k'.
Proof.
  induction d as [| [k0 v0] d IH]; simpl.
  - destruct (decide (k = k')); done.
  - destruct (decide (k0 = k)) as [-> | Hne]; simpl.
    + destruct (decide (k = k')); done.
    + rewrite IH. destruct (decide (k0 = k')) as [-> | ?]; [| done].
      rewrite decide_False; [done | congruence].
Qed.

Lemma dict_get_Some_elem_of k v d : dict_get d k = Some v -> (k, v) ∈ d.
Proof.
  induction d as [| [k0 v0] d IH]; simpl; [done |].
  destruct (decide (k0 = k)) as [-> | ?].
  - intros [= ->]. apply elem_of_cons. by left.
  - intros H. apply elem_of_cons. right. auto.
Qed.

Lemma dict_get_None k d : dict_get d k = None <-> k ∉ d.*1.
Proof.
  induction d as [| [k0 v0] d IH]; csimpl.
  - split; [intros _; apply not_elem_of_nil | done].
  - rewrite elem_of_cons. destruct (decide (k0 = k)) as [-> | ?].
    + split; [done | tauto].
    + rewrite IH. split; [intros ? [-> | ?]; done | tauto].
Qed.
End dict_facts.

(** ** Exact-time analysis *)

Lemma analyze_exact_time_patterns_v5_V5 self groups :
  V5 (analyze_exact_time_patterns_v5 self groups) = V5 self.
Proof.
  revert self. unfold analyze_exact_time_patterns_v5.
  induction groups as [| [[k c] g] groups IH]; intros self; [done |].
  simpl. rewrite IH. by destruct (_ <=? _)%nat.
Qed.

Lemma analyze_exact_time_patterns_v5_optimal self groups :
  optimal_times (analyze_exact_time_patterns_v5 self groups) = optimal_times self.
Proof.
  revert self. unfold analyze_exact_time_patterns_v5.
  induction groups as [| [[k c] g] groups IH]; intros self; [done |].
  simpl. rewrite IH. by destruct (_ <=? _)%nat.
Qed.

(** Every stored pattern is either an old one or the analysis of a
    group that reaches the minimum number of draws. *)
Lemma analyze_exact_time_patterns_v5_lookup self groups time_key p :
  dict_get (time_patterns (analyze_exact_time_patterns_v5 self groups)) time_key = Some p ->
  dict_get (time_patterns self) time_key = Some p
  \/ exists corrected group,
       ((time_key, corrected), group) ∈ groups
       /\ (MIN_DRAWS_FOR_ANALYSIS (V5 self) <= length group)%nat
       /\ p = analyze_group (V5 self) corrected group.
Proof.
  revert self. unfold analyze_exact_time_patterns_v5.
  induction groups as [| [[k c] g] groups IH]; intros self; [by left |].
  simpl. intros Hget. apply IH in Hget as [Hget | (c' & g' & Hin & Hmin & ->)].
  - destruct (Nat.leb_spec (MIN_DRAWS_FOR_ANALYSIS (V5 self)) (length g)) as [Hmin | Hlt];
      [| by left].
    simpl in Hget. rewrite dict_get_set in Hget.
    destruct (decide (k = time_key)) as [-> | Hne]; [| by left].
    injection Hget as <-. right. exists c, g.
    split; [apply elem_of_cons; by left | done].
  - right. exists c', g'. split; [apply elem_of_cons; by right |].
    destruct (_ <=? _)%nat; done.
Qed.

Lemma analyze_group_consistency self corrected group :
  (0 <= consistency_score (analyze_group self corrected group) <= 100)%Q.
Proof. apply _calculate_v5_consistency_bounds. Qed.

(** ** Confidence *)

Lemma _calculate_v5_confidence_bounds self p time_key :
  CONFIDENCE_FACTORS (V5 self) = CONFIDENCE_FACTORS V5_CONFIG ->
  (0 <= consistency_score p)%Q ->
  (50 <= _calculate_v5_confidence self p time_key <= 95)%Q.
Proof.
  intros Hcf Hcs. unfold _calculate_v5_confidence. rewrite Hcf. cbn [V5_CONFIG
    CONFIDENCE_FACTORS BASE_CONFIDENCE DRAW_MULTIPLIER CONSISTENCY_MULTIPLIER
    COMBINATION_MULTIPLIER MAX_CONFIDENCE].
  split; [| apply Q.le_min_r].
  apply Q.min_glb; [| discriminate].
  assert (H1 : (0 <= Qmin (QofN (total_draws p) * (3 # 2)) 25)%Q).
  { apply Qmin_nonneg; [| discriminate].
    apply Qmult_le_0_compat; [apply QofN_nonneg | discriminate]. }
  assert (H2 : (0 <= consistency_score p * (2 # 5))%Q).
  { apply Qmult_le_0_compat; [assumption | discriminate]. }
  assert (H3 : (0 <= QofN (length (frequent_combinations p)) * 2)%Q).
  { apply Qmult_le_0_compat; [apply QofN_nonneg | discriminate]. }
  destruct (decide (corrected_time p <> time_key));
    destruct (decide (time_key ∈ take 5 (optimal_times self))); lra.
Qed.

(** C5: for every slot stored by the exact-time analysis, whatever the
    ranking, the confidence equals
    min(50 + min(totalDraws*1.5, 25) + consistencyScore*0.4 + comboCount*2
        + timingBoost + optimalBoost, 95),
    where timingBoost is 5 exactly when the corrected key differs from
    the raw key and optimalBoost is 10 exactly when the key is among the
    first five ranked keys; it lies in [50, 95]. *)
Theorem confidence_formula_and_bounds
    (self : analyzer) (groups : time_groups) (ranking : list string)
    (time_key : string) (p : pattern) :
  V5 self = V5_CONFIG ->
  time_patterns self = [] ->
  let analyzed := analyze_exact_time_patterns_v5 self groups in
  let ranked := {| V5 := V5 analyzed;
                   time_patterns := time_patterns analyzed;
                   time_window_patterns := time_window_patterns analyzed;
                   optimal_times := ranking |} in
  dict_get (time_patterns ranked) time_key = Some p ->
  let timing_boost := (if decide (corrected_time p = time_key) then 0 else 5)%Q in
  let optimal_boost := (if decide (time_key ∈ take 5 ranking) then 10 else 0)%Q in
  (_calculate_v5_confidence ranked p time_key ==
     Qmin (50 + Qmin (QofN (total_draws p) * (3 # 2)) 25
              + consistency_score p * (2 # 5)
              + QofN (length (frequent_combinations p)) * 2
              + timing_boost + optimal_boost) 95)%Q
  /\ (50 <= _calculate_v5_confidence ranked p time_key <= 95)%Q.
Proof.
  intros Hcfg Hempty analyzed ranked Hget timing_boost optimal_boost.
  assert (HV : V5 ranked = V5_CONFIG).
  { unfold ranked, analyzed. simpl. by rewrite analyze_exact_time_patterns_v5_V5. }
  split.
  - unfold _calculate_v5_confidence. rewrite HV.
    unfold timing_boost, optimal_boost. simpl optimal_times.
    cbn [V5_CONFIG CONFIDENCE_FACTORS BASE_CONFIDENCE DRAW_MULTIPLIER
         CONSISTENCY_MULTIPLIER COMBINATION_MULTIPLIER MAX_CONFIDENCE].
    destruct (decide (corrected_time p <> time_key)) as [Hne | Heq];
      destruct (decide (corrected_time p = time_key)) as [Heq' | Hne'];
      try done; reflexivity.
  - apply _calculate_v5_confidence_bounds; [by rewrite HV |].
    simpl in Hget. unfold analyzed in Hget.
    apply analyze_exact_time_patterns_v5_lookup in Hget
      as [Hget | (c & g & _ & _ & ->)].
    + rewrite Hempty in Hget. discriminate.
    + apply analyze_group_consistency.
Qed.

Lemma confidence_formula_and_bounds_witness :
  (50 <= _calculate_v5_confidence sample_analyzer
           (analyze_group V5_CONFIG "07:58" sample_group) "08:03" <= 95)%Q.
Proof.
  exact (proj2 (confidence_formula_and_bounds empty_analyzer sample_groups ["08:03"]
                  "08:03" (analyze_group V5_CONFIG "07:58" sample_group)
                  eq_refl eq_refl ltac:(vm_compute; reflexivity))).
Defined.

(** ** Combinations: the minimum of three draws *)

(** C10: for every group of fewer than three draws the combination
    analysis returns the empty list, even when a pair occurs in two
    draws. *)
Theorem combinations_below_three_draws_empty (draws_list : list (list Z)) :
  (length draws_list < 3)%nat -> _analyze_v5_combinations draws_list = [].
Proof.
  intros Hlen. unfold _analyze_v5_combinations.
  destruct (Nat.ltb_spec (length draws_list) 3); [reflexivity | lia].
Qed.

Lemma combinations_below_three_draws_empty_witness :
  counter_get (combination_counter [[1; 2]; [1; 2]]) [1; 2] = 2%nat
  /\ _analyze_v5_combinations [[1; 2]; [1; 2]] = [].
Proof.
  split; [reflexivity |].
  apply (combinations_below_three_draws_empty [[1; 2]; [1; 2]]). simpl. lia.
Defined.

(** ** Recommendations for an unknown time key *)

(** C4 (as amended): for every non-empty time key that is absent from
    the slot summaries, the recommendation request returns the empty
    dictionary. *)
Theorem recommendations_for_unknown_key_empty
    (self : analyzer) (target_time : string) (ball_count : option nat) :
  target_time <> "" ->
  dict_get (time_patterns self) target_time = None ->
  generate_v5_recommendations self (Some target_time) ball_count = [].
Proof.
  intros Hne Hnone. unfold generate_v5_recommendations, truthy_str.
  destruct (String.eqb_spec target_time "") as [-> | _]; [done |].
  simpl. rewrite Hnone.
  destruct (decide (is_Some None)) as [[x Hx] | _]; [discriminate | reflexivity].
Qed.

Lemma recommendations_for_unknown_key_empty_witness :
  generate_v5_recommendations sample_analyzer (Some "23:59") (Some 4%nat) = [].
Proof.
  apply (recommendations_for_unknown_key_empty sample_analyzer "23:59" (Some 4%nat)).
  - discriminate.
  - vm_compute. reflexivity.
Defined.

(** C4 as stated fails: the key 23:59 is absent from the summaries of
    [sample_analyzer], and the request returns the empty dictionary: no
    entry for the key, hence no fallback numbers and no confidence of
    60; the function has no error result either. *)
Lemma recommendations_for_unknown_key_no_fallback :
  dict_get (time_patterns sample_analyzer) "23:59" = None
  /\ generate_v5_recommendations sample_analyzer (Some "23:59") (Some 4%nat) = []
  /\ ~ exists r, ("23:59", r) ∈ generate_v5_recommendations sample_analyzer
                                  (Some "23:59") (Some 4%nat).
Proof.
  assert (H : generate_v5_recommendations sample_analyzer (Some "23:59") (Some 4%nat) = [])
    by (vm_compute; reflexivity).
  split; [vm_compute; reflexivity |]. split; [exact H |].
  rewrite H. intros [r Hr]. by apply elem_of_nil in Hr.
Qed.

(** ** Persistence tiers *)

Lemma rate_mono n c1 c2 :
  (c1 <= c2)%nat -> (QofN c1 / QofN n <= QofN c2 / QofN n)%Q.
Proof.
  intros H. unfold Qdiv. apply Qmult_le_compat_r.
  - by apply QofN_le.
  - apply Qinv_le_0_compat, QofN_nonneg.
Qed.

Lemma rate_lt_inv n c1 c2 :
  (QofN c1 / QofN n < QofN c2 / QofN n)%Q -> (c1 < c2)%nat.
Proof.
  intros H. destruct (Nat.lt_ge_cases c1 c2) as [? | Hge]; [done |].
  apply (rate_mono n) in Hge. apply Qle_not_lt in Hge. done.
Qed.

Lemma Qle_bool_false a b : Qle_bool a b = false <-> (b < a)%Q.
Proof.
  split.
  - intros H. apply Qnot_le_lt. intros Hle. apply Qle_bool_iff in Hle. congruence.
  - intros H. destruct (Qle_bool a b) eqn:E; [| done].
    apply Qle_bool_iff in E. exfalso. eapply Qlt_not_le; eauto.
Qed.

Lemma tier_of_spec n c :
  match tier_of n c with
  | Some very_high => (2 # 5 <= QofN c / QofN n)%Q
  | Some high => (1 # 4 <= QofN c / QofN n)%Q /\ (QofN c / QofN n < 2 # 5)%Q
  | Some moderate => (3 # 20 <= QofN c / QofN n)%Q /\ (QofN c / QofN n < 1 # 4)%Q
  | None => (QofN c / QofN n < 3 # 20)%Q
  end.
Proof.
  unfold tier_of.
  destruct (Qle_bool (2 # 5) _) eqn:E1; [by apply Qle_bool_iff |].
  apply Qle_bool_false in E1.
  destruct (Qle_bool (1 # 4) _) eqn:E2; [split; [by apply Qle_bool_iff | done] |].
  apply Qle_bool_false in E2.
  destruct (Qle_bool (3 # 20) _) eqn:E3; [split; [by apply Qle_bool_iff | done] |].
  by apply Qle_bool_false in E3.
Qed.

Ltac tier_cases n c :=
  let H := fresh "Hspec" in
  pose proof (tier_of_spec n c) as H;
  generalize dependent (QofN c / QofN n)%Q; intros;
  destruct (tier_of n c) as [[| |] |]; try done; exfalso; lra.

Lemma tier_of_very_high n c :
  tier_of n c = Some very_high <-> (2 # 5 <= QofN c / QofN n)%Q.
Proof.
  split; intros H.
  - pose proof (tier_of_spec n c) as Hs. by rewrite H in Hs.
  - tier_cases n c.
Qed.

Lemma tier_of_high n c :
  tier_of n c = Some high <->
  (1 # 4 <= QofN c / QofN n)%Q /\ (QofN c / QofN n < 2 # 5)%Q.
Proof.
  split; intros H.
  - pose proof (tier_of_spec n c) as Hs. by rewrite H in Hs.
  - destruct H. tier_cases n c.
Qed.

Lemma tier_of_moderate n c :
  tier_of n c = Some moderate <->
  (3 # 20 <= QofN c / QofN n)%Q /\ (QofN c / QofN n < 1 # 4)%Q.
Proof.
  split; intros H.
  - pose proof (tier_of_spec n c) as Hs. by rewrite H in Hs.
  - destruct H. tier_cases n c.
Qed.

Lemma tier_of_none n c :
  tier_of n c = None <-> (QofN c / QofN n < 3 # 20)%Q.
Proof.
  split; intros H.
  - pose proof (tier_of_spec n c) as Hs. by rewrite H in Hs.
  - tier_cases n c.
Qed.

Lemma persistent_tier_elem_of t n fc e :
  e ∈ persistent_tier t n fc <-> e ∈ fc /\ tier_of n e.2 = Some t.
Proof.
  unfold persistent_tier. rewrite !list_elem_of_In, filter_In.
  destruct (tier_of n e.2) as [t' |]; [| split; intros [? ?]; done].
  destruct t, t'; simpl; split; intros [? ?]; done.
Qed.

(** A higher tier holds strictly larger counts. *)
Lemma tier_of_dominates n c1 c2 t1 t2 :
  tier_of n c1 = Some t1 -> tier_of n c2 = Some t2 ->
  match t1, t2 with
  | very_high, (high | moderate) | high, moderate => (c2 < c1)%nat
  | _, _ => True
  end.
Proof.
  intros H1 H2. destruct t1, t2; try done; apply (rate_lt_inv n).
  - apply tier_of_very_high in H1. apply tier_of_high in H2 as [_ H2].
    eapply Qlt_le_trans; eauto.
  - apply tier_of_very_high in H1. apply tier_of_moderate in H2 as [_ H2].
    eapply Qlt_le_trans; [exact H2 |]. eapply Qle_trans; [| exact H1]. discriminate.
  - apply tier_of_high in H1 as [H1 _]. apply tier_of_moderate in H2 as [_ H2].
    eapply Qlt_le_trans; eauto.
Qed.

Lemma tier_of_no_draws c : tier_of 0 c = None.
Proof.
  apply tier_of_none. unfold Qdiv. simpl Qinv.
  rewrite Qmult_0_r. reflexivity.
Qed.

Lemma persistent_tier_no_draws t fc : persistent_tier t 0 fc = [].
Proof.
  unfold persistent_tier. induction fc as [| e fc IH]; [done |].
  simpl. by rewrite tier_of_no_draws.
Qed.

(** C2 (as amended): every entry of the frequency counter with
    appearance rate at least 0.15 lies in exactly one tier (very_high:
    rate >= 0.40; high: 0.25 <= rate < 0.40; moderate: 0.15 <= rate <
    0.25) and an entry with rate below 0.15 lies in none; the returned
    list is the concatenation of the very_high, high and moderate tiers
    in that order, each tier sorted by count descending (ties in counter
    order) and holding exactly its entries. *)
Theorem persistent_numbers_by_tier (draws_list : list (list Z)) (fc : list (Z * nat)) :
  let n := length draws_list in
  let rate (e : Z * nat) := (QofN e.2 / QofN n)%Q in
  let tier_sorted t := sorted_desc snd (persistent_tier t n fc) in
  (forall e, e ∈ persistent_tier very_high n fc <-> e ∈ fc /\ (2 # 5 <= rate e)%Q)
  /\ (forall e, e ∈ persistent_tier high n fc <->
                e ∈ fc /\ (1 # 4 <= rate e)%Q /\ (rate e < 2 # 5)%Q)
  /\ (forall e, e ∈ persistent_tier moderate n fc <->
                e ∈ fc /\ (3 # 20 <= rate e)%Q /\ (rate e < 1 # 4)%Q)
  /\ (forall e t, (rate e < 3 # 20)%Q -> e ∉ persistent_tier t n fc)
  /\ (forall e t t', e ∈ persistent_tier t n fc -> e ∈ persistent_tier t' n fc -> t = t')
  /\ _find_v5_persistent_numbers draws_list fc =
       (tier_sorted very_high).*1 ++ (tier_sorted high).*1 ++ (tier_sorted moderate).*1
  /\ (forall t, StronglySorted (key_ge snd) (tier_sorted t)
                /\ tier_sorted t ≡ₚ persistent_tier t n fc).
Proof.
  intros n rate tier_sorted.
  split; [| split; [| split; [| split; [| split; [| split]]]]].
  - intros e. by rewrite persistent_tier_elem_of, tier_of_very_high.
  - intros e. by rewrite persistent_tier_elem_of, tier_of_high.
  - intros e. by rewrite persistent_tier_elem_of, tier_of_moderate.
  - intros e t Hr. rewrite persistent_tier_elem_of. intros [_ Ht].
    apply tier_of_none in Hr. congruence.
  - intros e t t'. rewrite !persistent_tier_elem_of. intros [_ H1] [_ H2]. congruence.
  - unfold _find_v5_persistent_numbers, tier_sorted.
    destruct draws_list as [| d ds].
    + subst n. simpl length. by rewrite !persistent_tier_no_draws.
    + fold n. rewrite <- !fmap_app. f_equal.
      rewrite sorted_desc_app.
      * f_equal. apply sorted_desc_app.
        intros x y. rewrite !persistent_tier_elem_of. intros [_ Hx] [_ Hy].
        pose proof (tier_of_dominates n x.2 y.2 _ _ Hx Hy) as H. simpl in H. lia.
      * intros x y. rewrite elem_of_app, !persistent_tier_elem_of.
        intros [_ Hx] [[_ Hy] | [_ Hy]];
          pose proof (tier_of_dominates n x.2 y.2 _ _ Hx Hy) as H; simpl in H; lia.
  - intros t. split; [apply sorted_desc_sorted | apply sorted_desc_perm].
Qed.

(** C2 as stated fails: in [sample_window] the number 9 is observed
    once in eight draws (rate 0.125), so it is put in no tier and is
    missing from the persistent numbers. *)
Lemma persistent_numbers_drop_rare_number :
  let fc := Counter (concat sample_window) in
  (9, 1%nat) ∈ fc
  /\ persistent_tier very_high (length sample_window) fc = [(1, 8%nat)]
  /\ persistent_tier high (length sample_window) fc = []
  /\ persistent_tier moderate (length sample_window) fc = []
  /\ _find_v5_persistent_numbers sample_window fc = [1].
Proof.
  repeat split; try (vm_compute; reflexivity).
  apply list_elem_of_In. vm_compute. auto.
Qed.

(** ** The most common entries of a counter *)

Section most_common_facts.
Context {K : Type} `{EqDecision K}.
Implicit Types (k x y : K) (l : list K) (n : nat).

Lemma most_common_keys_NoDup n (c : list (K * nat)) :
  NoDup c.*1 -> NoDup (most_common n c).*1.
Proof.
  intros Hc. unfold most_common. rewrite fmap_take.
  eapply sublist_NoDup; [| apply sublist_take].
  by rewrite sorted_desc_perm.
Qed.

Lemma most_common_length n (c : list (K * nat)) :
  length (most_common n c) = Nat.min n (length c).
Proof. unfold most_common. by rewrite length_take, sorted_desc_length. Qed.

Lemma most_common_elem_of n (c : list (K * nat)) e : e ∈ most_common n c -> e ∈ c.
Proof.
  unfold most_common. intros He.
  apply (sorted_desc_elem_of snd). eapply elem_of_sublist; [exact He |].
  apply sublist_take.
Qed.

(** Order within [most_common]: counts descend, and entries with equal
    counts keep the order of the counter. *)
Lemma most_common_before n (c : list (K * nat)) e1 e2 :
  before e1 e2 (most_common n c) ->
  (e2.2 <= e1.2)%nat /\ (e1.2 = e2.2 -> before e1 e2 c).
Proof.
  unfold most_common. intros Hb. apply before_take in Hb. split.
  - apply (sorted_before_key snd e1 e2 _ (sorted_desc_sorted snd c) Hb).
  - intros Heq. by apply (sorted_desc_stable snd).
Qed.

(** Entries left out of [most_common] have counts no larger than the
    entries kept. *)
Lemma most_common_top n (c : list (K * nat)) e1 e2 :
  NoDup c.*1 ->
  e1 ∈ most_common n c -> e2 ∈ c -> e2.1 ∉ (most_common n c).*1 ->
  (e2.2 <= e1.2)%nat.
Proof.
  unfold most_common. intros Hnd H1 H2 Hout.
  apply (sorted_take_drop_key snd n c e1 e2 H1).
  apply (sorted_desc_elem_of snd) in H2.
  rewrite <- (take_drop n (sorted_desc snd c)) in H2.
  apply elem_of_app in H2 as [H2 | H2]; [| done].
  exfalso. apply Hout. by apply list_elem_of_fmap_2.
Qed.

Lemma most_common_Counter_order n l i j x y :
  (i < j)%nat ->
  (most_common n (Counter l)).*1 !! i = Some x ->
  (most_common n (Counter l)).*1 !! j = Some y ->
  (occurrences y l <= occurrences x l)%nat
  /\ (occurrences x l = occurrences y l -> precedes x y l).
Proof.
  intros Hij Hi Hj.
  apply list_lookup_fmap_Some in Hi as ([x' cx] & -> & Hi).
  apply list_lookup_fmap_Some in Hj as ([y' cy] & -> & Hj).
  pose proof (before_lookup _ _ _ _ _ Hij Hi Hj) as Hb.
  apply most_common_before in Hb as [Hle Hst]. simpl in *.
  apply list_elem_of_lookup_2, most_common_elem_of, Counter_entry in Hi as [-> _].
  apply list_elem_of_lookup_2, most_common_elem_of, Counter_entry in Hj as [-> _].
  split; [done |]. intros Heq.
  apply Counter_keys_order. apply (before_fmap fst) in Hst; done.
Qed.

Lemma most_common_Counter_top n l x y :
  x ∈ (most_common n (Counter l)).*1 -> y ∈ l ->
  y ∉ (most_common n (Counter l)).*1 ->
  (occurrences y l <= occurrences x l)%nat.
Proof.
  intros Hx Hy Hout.
  apply list_elem_of_fmap in Hx as ([x' cx] & -> & Hx).
  pose proof (most_common_elem_of _ _ _ Hx) as Hc.
  apply Counter_entry in Hc as [-> _].
  apply Counter_elem_of_keys, counter_get_elem_of in Hy.
  rewrite Counter_get in Hy.
  apply (most_common_top n (Counter l) (x', occurrences x' l) (y, occurrences y l));
    [apply Counter_NoDup | done ..].
Qed.

Lemma most_common_Counter_elem_of n l x :
  x ∈ (most_common n (Counter l)).*1 -> x ∈ l.
Proof.
  intros Hx. apply list_elem_of_fmap in Hx as ([x' cx] & -> & Hx).
  by apply most_common_elem_of, Counter_entry in Hx as [_ ?].
Qed.
End most_common_facts.

(** ** Hot numbers *)

(** C7 (as amended): the hot numbers of a group are its top-K numbers
    (K = 15) by occurrence count, without repetition, in descending
    count; among numbers with equal counts the one whose first
    occurrence in the flattened group (draws in order, each draw
    ascending) comes first is listed first; every observed number left
    out occurs no more often than any hot number. *)
Theorem hot_numbers_order (self : config) (corrected : string) (group : list (list Z)) :
  (MIN_DRAWS_FOR_ANALYSIS self <= length group)%nat ->
  let p := analyze_group self corrected group in
  let all_numbers := concat (all_draws p) in
  let hot := hot_numbers p in
  all_draws p = map sorted_asc group
  /\ NoDup hot
  /\ length hot = Nat.min (MAX_RECOMMENDATIONS self) (length (numbers_frequency p))
  /\ (forall x, x ∈ hot -> x ∈ all_numbers)
  /\ (forall i j x y,
         (i < j)%nat -> hot !! i = Some x -> hot !! j = Some y ->
         (occurrences y all_numbers <= occurrences x all_numbers)%nat
         /\ (occurrences x all_numbers = occurrences y all_numbers ->
             precedes x y all_numbers))
  /\ (forall x y,
         x ∈ hot -> y ∈ all_numbers -> y ∉ hot ->
         (occurrences y all_numbers <= occurrences x all_numbers)%nat).
Proof.
  intros _ p all_numbers hot. subst p all_numbers hot. simpl.
  split; [done |]. split; [apply most_common_keys_NoDup, Counter_NoDup |].
  split; [by rewrite length_fmap, most_common_length |].
  split; [intros x; apply most_common_Counter_elem_of |].
  split; [intros i j x y; apply most_common_Counter_order |].
  intros x y. apply most_common_Counter_top.
Qed.

Lemma hot_numbers_order_witness :
  let p := analyze_group V5_CONFIG "07:58" tie_group in
  let all_numbers := concat (all_draws p) in
  hot_numbers p = [3; 2; 1; 4; 5; 6]
  /\ (occurrences 1%Z all_numbers <= occurrences 2%Z all_numbers)%nat
  /\ (occurrences 2 all_numbers = occurrences 1 all_numbers -> precedes 2 1 all_numbers).
Proof.
  intros p all_numbers. split; [vm_compute; reflexivity |].
  destruct (hot_numbers_order V5_CONFIG "07:58" tie_group) as (_ & _ & _ & _ & H & _);
    [vm_compute; lia |].
  apply (H 1%nat 2%nat 2 1); [lia | reflexivity | reflexivity].
Defined.

(** C7 as stated fails: in [tie_group] the numbers 1 and 2 both occur
    once, yet 2 is listed before 1, since 2 occurs first in the group. *)
Lemma hot_numbers_tie_not_ascending :
  let p := analyze_group V5_CONFIG "07:58" tie_group in
  (MIN_DRAWS_FOR_ANALYSIS V5_CONFIG <= length tie_group)%nat
  /\ hot_numbers p = [3; 2; 1; 4; 5; 6]
  /\ occurrences 2 (concat (all_draws p)) = occurrences 1 (concat (all_draws p))
  /\ hot_numbers p !! 1%nat = Some 2
  /\ hot_numbers p !! 2%nat = Some 1
  /\ 1 < 2.
Proof. repeat split; try (vm_compute; reflexivity); vm_compute; lia. Qed.

(** ** Combinations *)

Lemma before_omap {A B : Type} (g : A -> option B) (y1 y2 : B) (l : list A) :
  before y1 y2 (omap g l) ->
  exists x1 x2, g x1 = Some y1 /\ g x2 = Some y2 /\ before x1 x2 l.
Proof.
  induction l as [| x l IH]; csimpl; [tauto |].
  destruct (g x) as [y |] eqn:E; csimpl.
  - intros [[-> Hy2] | H].
    + apply list_elem_of_omap in Hy2 as (x2 & Hx2 & E2).
      exists x, x2. auto.
    + destruct (IH H) as (x1 & x2 & ? & ? & ?). exists x1, x2. auto.
  - intros H. destruct (IH H) as (x1 & x2 & ? & ? & ?). exists x1, x2. auto.
Qed.

Lemma insert_asc_perm x l : insert_asc x l ≡ₚ x :: l.
Proof.
  induction l as [| y l IH]; simpl; [done |].
  destruct (y <=? x); [| done]. rewrite IH. apply Permutation_swap.
Qed.

Lemma sorted_asc_perm l : sorted_asc l ≡ₚ l.
Proof.
  induction l as [| x l IH]; [done |].
  unfold sorted_asc in *. simpl. by rewrite insert_asc_perm, IH.
Qed.

Lemma combinations_length {A : Type} (l : list A) (k : nat) (c : list A) :
  c ∈ combinations l k -> length c = k.
Proof.
  revert k c. induction l as [| x l IH]; intros [| k] c; simpl.
  - by intros ->%list_elem_of_singleton.
  - by intros ?%elem_of_nil.
  - by intros ->%list_elem_of_singleton.
  - rewrite elem_of_app. intros [Hc | Hc]; [| by apply IH].
    apply list_elem_of_fmap in Hc as (c' & -> & Hc'). simpl. f_equal. by apply IH.
Qed.

Lemma elem_of_concat {A : Type} (x : A) (ls : list (list A)) :
  x ∈ concat ls <-> exists l, l ∈ ls /\ x ∈ l.
Proof.
  rewrite list_elem_of_In, in_concat. split; intros (l & H1 & H2); exists l.
  - by rewrite !list_elem_of_In.
  - by rewrite <- !list_elem_of_In.
Qed.

Lemma draw_subsets_length draw c :
  c ∈ draw_subsets draw -> length c = 2%nat \/ length c = 3%nat.
Proof.
  unfold draw_subsets. rewrite elem_of_app. intros [Hc | Hc].
  - apply list_elem_of_fmap in Hc as (c' & -> & Hc'). left.
    rewrite sorted_asc_perm. by apply combinations_length in Hc'.
  - destruct (3 <=? length draw)%nat; [| by apply elem_of_nil in Hc].
    apply list_elem_of_fmap in Hc as (c' & -> & Hc'). right.
    rewrite sorted_asc_perm. by apply combinations_length in Hc'.
Qed.

Lemma enumerated_subsets_length draws_list c :
  c ∈ enumerated_subsets draws_list -> length c = 2%nat \/ length c = 3%nat.
Proof.
  unfold enumerated_subsets. intros Hc.
  apply elem_of_concat in Hc as (ds & Hds & Hc).
  apply list_elem_of_fmap in Hds as (d & -> & _). by apply draw_subsets_length in Hc.
Qed.

(** The counting loop builds the counter of the enumerated subsets. *)
Lemma combination_counter_Counter draws_list :
  combination_counter draws_list = Counter (enumerated_subsets draws_list).
Proof.
  unfold combination_counter, Counter, enumerated_subsets.
  generalize (@nil (list Z * nat)).
  induction draws_list as [| d ds IH]; intros c; [done |].
  cbn [foldl map concat]. rewrite IH, counter_update_app. f_equal.
  unfold draw_subsets. rewrite counter_update_app.
  by destruct (3 <=? length d)%nat.
Qed.

Lemma frequent_combos_elem_of draws_list cb :
  cb ∈ frequent_combos draws_list <->
  (2 <= frequency cb)%nat
  /\ (numbers cb, frequency cb) ∈ Counter (enumerated_subsets draws_list)
  /\ percentage cb = (QofN (frequency cb) / QofN (length draws_list) * 100)%Q.
Proof.
  unfold frequent_combos. rewrite combination_counter_Counter, list_elem_of_omap. split.
  - intros ([c n] & Hin & Hg). destruct (Nat.leb_spec 2 n); [| done].
    injection Hg as <-. simpl. auto.
  - intros (Hn & Hin & Hp). exists (numbers cb, frequency cb). split; [done |].
    destruct (Nat.leb_spec 2 (frequency cb)); [| lia].
    destruct cb as [c n q]. simpl in *. by rewrite Hp.
Qed.

Lemma frequent_combos_before draws_list a b :
  before a b (frequent_combos draws_list) ->
  before (numbers a) (numbers b) (Counter (enumerated_subsets draws_list)).*1.
Proof.
  unfold frequent_combos. rewrite combination_counter_Counter. intros H.
  apply before_omap in H as ([c1 n1] & [c2 n2] & H1 & H2 & Hb).
  apply (before_fmap fst) in Hb. simpl in Hb.
  destruct (2 <=? n1)%nat; [| done]. destruct (2 <=? n2)%nat; [| done].
  injection H1 as <-. injection H2 as <-. done.
Qed.

Lemma frequent_combos_numbers_inj draws_list a b :
  a ∈ frequent_combos draws_list -> b ∈ frequent_combos draws_list ->
  numbers a = numbers b -> a = b.
Proof.
  rewrite !frequent_combos_elem_of. intros (_ & Ha & Hpa) (_ & Hb & Hpb) Heq.
  apply Counter_entry in Ha as [Ha _]. apply Counter_entry in Hb as [Hb _].
  destruct a as [ca na qa], b as [c' nb qb]. simpl in *. subst. done.
Qed.

Lemma _analyze_v5_combinations_elem_of draws_list cb :
  cb ∈ _analyze_v5_combinations draws_list -> cb ∈ frequent_combos draws_list.
Proof.
  unfold _analyze_v5_combinations. destruct (_ <? _)%nat; [by intros ?%elem_of_nil |].
  intros H. apply (sorted_desc_elem_of frequency).
  eapply elem_of_sublist; [exact H | apply sublist_take].
Qed.

(** C3 (as amended): for every group of at least three draws the
    combination analysis emits at most ten entries; each is a sorted
    2- or 3-element subset counted at least twice across the group, with
    its count and with percentage count / draws * 100; the entries are in
    descending count, equal counts in the order in which the
    combinations were first counted; every combination counted at least
    twice is emitted unless ten entries with counts at least as large
    are. *)
Theorem combinations_top_ten (draws_list : list (list Z)) :
  (3 <= length draws_list)%nat ->
  let out := _analyze_v5_combinations draws_list in
  let subsets := enumerated_subsets draws_list in
  (length out <= 10)%nat
  /\ (forall cb, cb ∈ out ->
        (2 <= frequency cb)%nat
        /\ frequency cb = occurrences (numbers cb) subsets
        /\ (length (numbers cb) = 2%nat \/ length (numbers cb) = 3%nat)
        /\ percentage cb = (QofN (frequency cb) / QofN (length draws_list) * 100)%Q)
  /\ (forall i j a b,
        (i < j)%nat -> out !! i = Some a -> out !! j = Some b ->
        (frequency b <= frequency a)%nat
        /\ (frequency a = frequency b -> precedes (numbers a) (numbers b) subsets))
  /\ (forall c,
        (2 <= occurrences c subsets)%nat ->
        (exists cb, cb ∈ out /\ numbers cb = c)
        \/ (length out = 10%nat
            /\ forall a, a ∈ out -> (occurrences c subsets <= frequency a)%nat)).
Proof.
  intros Hlen out subsets. unfold subsets. clear subsets.
  assert (Hout : out = take 10 (sorted_desc frequency (frequent_combos draws_list))).
  { unfold out, _analyze_v5_combinations.
    destruct (Nat.ltb_spec (length draws_list) 3); [lia | done]. }
  split; [| split; [| split]].
  - rewrite Hout, length_take. apply Nat.le_min_l.
  - intros cb Hcb. apply _analyze_v5_combinations_elem_of in Hcb.
    apply frequent_combos_elem_of in Hcb as (H2 & Hin & Hp).
    apply Counter_entry in Hin as [Hocc Hsub].
    split; [done |]. split; [done |]. split; [| done].
    by apply enumerated_subsets_length in Hsub.
  - intros i j a b Hij Hi Hj. rewrite Hout in Hi, Hj.
    pose proof (before_lookup _ _ _ _ _ Hij Hi Hj) as Hb.
    apply before_take in Hb. split.
    + apply (sorted_before_key frequency a b _ (sorted_desc_sorted frequency _) Hb).
    + intros Heq. apply (sorted_desc_stable frequency) in Hb; [| done].
      by apply Counter_keys_order, frequent_combos_before.
  - intros c Hc.
    set (cb := {| numbers := c;
                  frequency := occurrences c (enumerated_subsets draws_list);
                  percentage := (QofN (occurrences c (enumerated_subsets draws_list))
                                 / QofN (length draws_list) * 100)%Q |}).
    assert (Hcb : cb ∈ frequent_combos draws_list).
    { apply frequent_combos_elem_of. simpl. split; [done |]. split; [| done].
      rewrite <- Counter_get. apply counter_get_elem_of, Counter_elem_of_keys.
      apply occurrences_pos. lia. }
    apply (sorted_desc_elem_of frequency) in Hcb.
    rewrite <- (take_drop 10 (sorted_desc frequency _)) in Hcb.
    apply elem_of_app in Hcb as [Hcb | Hcb].
    + left. exists cb. by rewrite Hout.
    + right. split.
      * rewrite Hout, length_take.
        destruct (Nat.le_gt_cases (length (sorted_desc frequency
                                             (frequent_combos draws_list))) 10)
          as [Hle | Hgt]; [| apply Nat.min_l; lia].
        rewrite drop_ge in Hcb by done. by apply elem_of_nil in Hcb.
      * intros a Ha. rewrite Hout in Ha.
        apply (sorted_take_drop_key frequency 10 _ a cb Ha Hcb).
Qed.

Lemma combinations_top_ten_witness :
  _analyze_v5_combinations pair_draws =
    [{| numbers := [1; 2]; frequency := 2; percentage := 200 # 3 |}]
  /\ (forall cb, cb ∈ _analyze_v5_combinations pair_draws ->
        (2 <= frequency cb)%nat
        /\ frequency cb = occurrences (numbers cb) (enumerated_subsets pair_draws)
        /\ (length (numbers cb) = 2%nat \/ length (numbers cb) = 3%nat)
        /\ percentage cb = (QofN (frequency cb) / QofN (length pair_draws) * 100)%Q).
Proof.
  split; [vm_compute; reflexivity |].
  exact (proj1 (proj2 (combinations_top_ten pair_draws ltac:(simpl; lia)))).
Defined.

(** The documented example: the pair (1,2), present in 2 of 3 draws of
    size 3, is included with percentage 200/3, within 0.05 of 66.7. *)
Example combinations_pair_two_of_three :
  exists cb, cb ∈ _analyze_v5_combinations pair_draws
    /\ numbers cb = [1; 2] /\ frequency cb = 2%nat
    /\ (percentage cb == 200 # 3)%Q
    /\ (6665 # 100 < percentage cb)%Q /\ (percentage cb < 6675 # 100)%Q.
Proof.
  exists {| numbers := [1; 2]; frequency := 2; percentage := 200 # 3 |}.
  split; [apply list_elem_of_In; vm_compute; auto |].
  repeat split; vm_compute; reflexivity.
Qed.

(** C3 as stated fails on the tie-break: in [tie_draws] the pairs (3,4)
    and (1,2) are both counted twice and (1,2) is lexicographically
    smaller, yet (3,4) is emitted first, since it is counted first. *)
Lemma combinations_tie_not_lexicographic :
  (3 <= length tie_draws)%nat
  /\ _analyze_v5_combinations tie_draws =
       [{| numbers := [3; 4]; frequency := 2; percentage := 200 # 4 |};
        {| numbers := [1; 2]; frequency := 2; percentage := 200 # 4 |}]
  /\ lex_ltb [1; 2] [3; 4] = true.
Proof. repeat split; vm_compute; try reflexivity; lia. Qed.

(** ** Monotonicity of the exact-time score *)

Lemma QofN_mult m n : (QofN (m * n) == QofN m * QofN n)%Q.
Proof. unfold QofN. by rewrite Nat2Z.inj_mul, inject_Z_mult. Qed.

Lemma Qdiv_le_cross a b c d :
  (0 < b)%nat -> (0 < d)%nat -> (a * d <= c * b)%nat ->
  (QofN a / QofN b <= QofN c / QofN d)%Q.
Proof.
  intros Hb Hd H.
  apply Qle_shift_div_r; [by apply QofN_pos |].
  assert (E : (QofN c / QofN d * QofN b == QofN c * QofN b / QofN d)%Q)
    by (unfold Qdiv; ring).
  rewrite E.
  apply Qle_shift_div_l; [by apply QofN_pos |].
  rewrite <- !QofN_mult. by apply QofN_le.
Qed.

Lemma length_concat_sum {A : Type} (ls : list (list A)) :
  length (concat ls) = sum_list (map length ls).
Proof.
  induction ls as [| l ls IH]; [done |]. simpl. by rewrite length_app, IH.
Qed.

Lemma sum_list_take_le (l : list nat) n : (sum_list (take n l) <= sum_list l)%nat.
Proof.
  revert n. induction l as [| x l IH]; intros [| n]; simpl; try lia.
  specialize (IH n). lia.
Qed.

Lemma sum_indicator (x : Z) (ks : list Z) :
  NoDup ks -> x ∈ ks ->
  sum_list ((fun k => if decide (x = k) then 1 else 0)%nat <$> ks) = 1%nat.
Proof.
  induction 1 as [| k ks Hk Hnd IH]; [by intros ?%elem_of_nil |].
  rewrite elem_of_cons. csimpl. intros Hx.
  destruct (decide (x = k)) as [-> | Hne].
  - f_equal. clear IH Hx. induction ks as [| k' ks IH]; [done |].
    csimpl. apply not_elem_of_cons in Hk as [Hne Hk].
    rewrite decide_False by done. apply IH; [done |]. by apply NoDup_cons in Hnd as [_ ?].
  - destruct Hx as [? | Hx]; [done |]. by apply IH.
Qed.

Lemma sum_list_fmap_add {A : Type} (f g : A -> nat) (l : list A) :
  sum_list ((fun a => f a + g a)%nat <$> l) =
  (sum_list (f <$> l) + sum_list (g <$> l))%nat.
Proof. induction l as [| a l IH]; [done |]. csimpl. rewrite IH. lia. Qed.

Lemma sum_indicator_absent (x : Z) (ks : list Z) :
  x ∉ ks ->
  sum_list ((fun k => if decide (x = k) then 1 else 0)%nat <$> ks) = 0%nat.
Proof.
  induction ks as [| k ks IH]; [done |].
  intros [Hne Hx]%not_elem_of_cons. csimpl.
  destruct (decide (x = k)); [done |]. by apply IH.
Qed.

(** The occurrences in [d] of pairwise distinct keys add up to the number
    of elements of [d] that are among the keys. *)
Lemma sum_occurrences (ks d : list Z) :
  NoDup ks ->
  sum_list ((fun k => occurrences k d) <$> ks) =
  length (filter (fun x => x ∈ ks) d).
Proof.
  intros Hnd. induction d as [| x d IH].
  - unfold occurrences. simpl. clear.
    induction ks as [| k ks IH]; [done |]. csimpl. exact IH.
  - transitivity
      (sum_list ((fun k => (if decide (x = k) then 1 else 0) + occurrences k d)%nat
                   <$> ks)).
    + f_equal. apply list_fmap_ext. intros i k _. rewrite occurrences_cons.
      by destruct (decide (x = k)).
    + rewrite sum_list_fmap_add, IH.
      destruct (decide (x ∈ ks)) as [Hx | Hx].
      * rewrite sum_indicator by done. by rewrite filter_cons_True.
      * rewrite sum_indicator_absent by done. by rewrite filter_cons_False.
Qed.

(** Appending a draw raises the sum of the ten largest counts by at
    least the number of its elements that are top-ten numbers. *)
Lemma top_appearances_grow (l d : list Z) :
  (sum_list (most_common 10 (Counter l)).*2
   + length (filter (fun x => x ∈ (most_common 10 (Counter l)).*1) d)
   <= sum_list (most_common 10 (Counter (l ++ d))).*2)%nat.
Proof.
  set (top := most_common 10 (Counter l)) in *.
  assert (HC' : Counter (l ++ d) = counter_update (Counter l) d)
    by apply counter_update_app.
  set (C' := Counter (l ++ d)) in *.
  set (m := (fun e : Z * nat => (e.1, counter_get C' e.1)) <$> top).
  assert (Htop_nd : NoDup top.*1) by apply most_common_keys_NoDup, Counter_NoDup.
  assert (Hm_keys : m.*1 = top.*1).
  { unfold m. rewrite <- list_fmap_compose. done. }
  assert (Hm_sub : m ⊆+ sorted_desc snd C').
  { apply NoDup_submseteq.
    - apply (NoDup_fmap_1 fst). by rewrite Hm_keys.
    - intros e He. apply sorted_desc_elem_of.
      apply list_elem_of_fmap in He as ([k n] & -> & He). simpl.
      apply counter_get_elem_of. rewrite HC'.
      apply counter_update_elem_of_keys. left.
      apply list_elem_of_fmap. exists (k, n). split; [done |].
      by apply most_common_elem_of in He. }
  assert (Hm_len : (length m <= 10)%nat).
  { unfold m, top. rewrite length_fmap, most_common_length. apply Nat.le_min_l. }
  pose proof (sorted_take_sum_max snd _ (sorted_desc_sorted snd C') m 10 Hm_sub Hm_len)
    as Hmax.
  assert (Hm_sum : sum_list m.*2 =
                   (sum_list top.*2 + length (filter (fun x => x ∈ top.*1) d))%nat).
  { rewrite <- (sum_occurrences top.*1 d Htop_nd).
    unfold m. rewrite <- !list_fmap_compose, <- sum_list_fmap_add.
    f_equal. apply list_fmap_ext. intros i [k n] Hi. simpl.
    rewrite HC', counter_get_update. f_equal.
    apply counter_get_entry; [apply Counter_NoDup |].
    apply list_elem_of_lookup_2 in Hi. by apply most_common_elem_of in Hi. }
  unfold C', most_common in *. lia.
Qed.

Lemma top_appearances_le_total (l : list Z) :
  (sum_list (most_common 10 (Counter l)).*2 <= length l)%nat.
Proof.
  unfold most_common. rewrite fmap_take.
  etransitivity; [apply sum_list_take_le |].
  by rewrite sorted_desc_perm, Counter_sum.
Qed.

Lemma Qmin_le_compat a b c : (a <= b -> Qmin a c <= Qmin b c)%Q.
Proof. intros H. apply Q.min_le_compat_r. exact H. Qed.

(** C6 (as amended): for every group of draws and every additional draw
    in which the share of numbers that are among the ten most frequent
    numbers of the group is at least the share of the group's
    observations taken by those ten numbers, the exact-time consistency
    score of the group extended with that draw is at least the score of
    the original group.  The two shares are compared cross-multiplied:
    [top_appearances * |draw| <= hot_hits * total_numbers]. *)
Theorem consistency_monotone_on_hot_share (draws_list : list (list Z)) (draw : list Z) :
  (top_appearances draws_list * length draw
   <= hot_hits draws_list draw * total_numbers draws_list)%nat ->
  (group_consistency draws_list <= group_consistency (draws_list ++ [draw]))%Q.
Proof.
  unfold top_appearances, hot_hits, total_numbers, top_numbers, group_consistency.
  intros Hshare.
  destruct draws_list as [| d0 ds].
  { apply _calculate_v5_consistency_bounds. }
  set (draws := d0 :: ds) in *.
  assert (Hcat : concat (draws ++ [draw]) = concat draws ++ draw).
  { by rewrite concat_app; simpl; rewrite app_nil_r. }
  rewrite Hcat.
  pose proof (top_appearances_grow (concat draws) draw) as Hgrow.
  rewrite <- length_concat_sum in Hshare.
  unfold _calculate_v5_consistency. subst draws.
  cbn [app]. rewrite <- !length_concat_sum.
  change ((d0 :: ds) ++ [draw]) with (d0 :: (ds ++ [draw])) in *.
  rewrite Hcat.
  set (l := concat (d0 :: ds)) in *.
  change (sum_list (map snd (most_common 10 (Counter l))))
    with (sum_list (most_common 10 (Counter l)).*2) in *.
  change (sum_list (map snd (most_common 10 (Counter (l ++ draw)))))
    with (sum_list (most_common 10 (Counter (l ++ draw))).*2).
  set (T := sum_list (most_common 10 (Counter l)).*2) in *.
  set (T' := sum_list (most_common 10 (Counter (l ++ draw))).*2) in *.
  set (h := length (filter _ draw)) in *.
  apply Qmin_le_compat. apply Qplus_le_compat.
  - rewrite length_app.
    destruct (Nat.ltb_spec 0 (length l)) as [Hpos | Hzero].
    + destruct (Nat.ltb_spec 0 (length l + length draw)) as [_ | ?]; [| lia].
      apply Qmult_le_compat_r; [| discriminate].
      apply Qdiv_le_cross; [lia | lia | nia].
    + destruct (0 <? _)%nat; [| apply Qle_refl].
      apply Qmult_le_0_compat; [| discriminate].
      apply Qdiv_nonneg; apply QofN_nonneg.
  - apply Qmin_le_compat. unfold Qdiv. apply Qmult_le_compat_r; [| discriminate].
    apply QofN_le. simpl. rewrite length_app. lia.
Qed.

(** A sixth draw of the numbers 1..20 after five such draws: ten of its
    twenty numbers are top-ten numbers, which hold half of the
    observations; the score goes from 50.25 to 50.3. *)
Lemma consistency_monotone_on_hot_share_witness :
  (top_appearances repeated_group * length full_draw
   <= hot_hits repeated_group full_draw * total_numbers repeated_group)%nat
  /\ (group_consistency repeated_group
      <= group_consistency (repeated_group ++ [full_draw]))%Q.
Proof.
  assert (H : (top_appearances repeated_group * length full_draw
               <= hot_hits repeated_group full_draw * total_numbers repeated_group)%nat).
  { apply Nat.leb_le. vm_compute. reflexivity. }
  split; [exact H |].
  exact (consistency_monotone_on_hot_share repeated_group full_draw H).
Defined.

(** C6 as stated fails: the number 1 is hot in [repeated_group] and
    occurs in [diluting_draw], yet adding that draw lowers the
    exact-time consistency score from 50.25 to 42.8. *)
Lemma consistency_drops_on_hot_repeat :
  1 ∈ hot_numbers (analyze_group V5_CONFIG "07:58" repeated_group)
  /\ 1 ∈ diluting_draw
  /\ (group_consistency repeated_group == 201 # 4)%Q
  /\ (group_consistency (repeated_group ++ [diluting_draw]) == 214 # 5)%Q
  /\ (group_consistency (repeated_group ++ [diluting_draw])
      < group_consistency repeated_group)%Q.
Proof.
  split; [apply list_elem_of_In; vm_compute; auto |].
  split; [apply list_elem_of_In; vm_compute; auto |].
  repeat split; vm_compute; reflexivity.
Qed.

(** ** Frequency counts of a group *)

Lemma occurrences_Permutation (k : Z) (l1 l2 : list Z) :
  l1 ≡ₚ l2 -> occurrences k l1 = occurrences k l2.
Proof. intros H. unfold occurrences. by rewrite H. Qed.

Lemma concat_sorted_asc_perm (group : list (list Z)) :
  concat (map sorted_asc group) ≡ₚ concat group.
Proof.
  induction group as [| d ds IH]; [done |].
  simpl. by rewrite IH, sorted_asc_perm.
Qed.

Lemma analyze_group_frequency_sum self corrected group :
  sum_list (numbers_frequency (analyze_group self corrected group)).*2 =
  sum_list (length <$> group).
Proof.
  simpl. rewrite Counter_sum, concat_sorted_asc_perm, length_concat_sum.
  f_equal.
Qed.

(** Every slot's frequency counter holds each observed number once, with
    the number of times it occurs in the rows of the group, and nothing
    else. *)
Theorem numbers_frequency_counts (self : config) (corrected : string)
    (group : list (list Z)) :
  let p := analyze_group self corrected group in
  NoDup (numbers_frequency p).*1
  /\ (forall k, counter_get (numbers_frequency p) k = occurrences k (concat group))
  /\ (forall k, k ∈ (numbers_frequency p).*1 <-> k ∈ concat group)
  /\ (forall k n, (k, n) ∈ numbers_frequency p ->
        n = occurrences k (concat group) /\ (1 <= n)%nat).
Proof.
  intros p. subst p. simpl.
  assert (Hocc : forall k, occurrences k (concat (map sorted_asc group)) =
                           occurrences k (concat group)).
  { intros k. apply occurrences_Permutation, concat_sorted_asc_perm. }
  split; [apply Counter_NoDup |].
  split; [intros k; by rewrite Counter_get |].
  split; [intros k; by rewrite Counter_elem_of_keys, concat_sorted_asc_perm |].
  intros k n Hin. apply Counter_entry in Hin as [-> Hk].
  rewrite Hocc. split; [done |].
  rewrite <- Hocc. by apply occurrences_pos.
Qed.

Lemma numbers_frequency_counts_witness :
  counter_get (numbers_frequency (analyze_group V5_CONFIG "07:58" sample_group)) 1
  = occurrences 1 (concat sample_group)
  /\ (4%nat = occurrences 1 (concat sample_group) /\ (1 <= 4)%nat).
Proof.
  destruct (numbers_frequency_counts V5_CONFIG "07:58" sample_group)
    as (_ & Hget & _ & Hentry).
  split; [apply Hget |]. apply (Hentry 1 4%nat).
  apply list_elem_of_In. vm_compute. auto.
Defined.

(** Frequency conservation: when every draw of a group has [size]
    numbers, the slot's counts add up to draws times [size]. *)
Theorem frequency_conservation (self : config) (corrected : string)
    (group : list (list Z)) (size : nat) :
  Forall (fun draw => length draw = size) group ->
  let p := analyze_group self corrected group in
  sum_list (numbers_frequency p).*2 = (total_draws p * size)%nat.
Proof.
  intros Hsize p. subst p. rewrite analyze_group_frequency_sum. simpl total_draws.
  induction Hsize as [| d ds Hd _ IH]; [done |]. csimpl. rewrite IH, Hd. lia.
Qed.

Lemma frequency_conservation_witness :
  sum_list (numbers_frequency (analyze_group V5_CONFIG "07:58" sample_group)).*2 =
  (total_draws (analyze_group V5_CONFIG "07:58" sample_group) * 3)%nat.
Proof.
  apply (frequency_conservation V5_CONFIG "07:58" sample_group 3).
  repeat constructor.
Defined.

(** ** Ball recommendations *)

Lemma dict_get_tabulate {V : Type} (f : nat -> V) (l : list nat) (k : nat) :
  dict_get ((fun b => (b, f b)) <$> l) k = if decide (k ∈ l) then Some (f k) else None.
Proof.
  induction l as [| x l IH]; csimpl.
  - destruct (decide (k ∈ [])) as [Hin | _]; [by apply elem_of_nil in Hin | done].
  - destruct (decide (x = k)) as [-> | Hne].
    + destruct (decide (k ∈ k :: l)) as [_ | Hnin]; [done |].
      exfalso. apply Hnin, elem_of_cons. by left.
    + rewrite IH. destruct (decide (k ∈ l)) as [Hin | Hnin];
        destruct (decide (k ∈ x :: l)) as [Hin' | Hnin']; try done.
      * exfalso. apply Hnin', elem_of_cons. by right.
      * exfalso. apply elem_of_cons in Hin' as [-> | ?]; done.
Qed.

Lemma most_common_ranking n (c : list (Z * nat)) :
  (most_common n c).*1 = take n (ranking c).
Proof. unfold most_common, ranking, most_common_all. apply fmap_take. Qed.

Lemma ranking_NoDup (c : list (Z * nat)) : NoDup c.*1 -> NoDup (ranking c).
Proof.
  intros H. unfold ranking, most_common_all. by rewrite sorted_desc_perm.
Qed.

Lemma analyze_group_ball_recommendations self corrected group b :
  dict_get (ball_recommendations (analyze_group self corrected group)) b =
  if decide (b ∈ seq 1 8) then
    let r := ranking (numbers_frequency (analyze_group self corrected group)) in
    Some {| primary := take b r;
            backup := drop b (take (b * 2) r);
            extended := take (b * 3) r |}
  else None.
Proof.
  cbn [analyze_group ball_recommendations numbers_frequency].
  change (map ?f (seq 1 8)) with (f <$> seq 1 8).
  rewrite (dict_get_tabulate _ (seq 1 8) b).
  destruct (decide (b ∈ seq 1 8)) as [Hb | _]; [| done].
  cbv zeta. change (map fst ?l) with (l.*1). rewrite most_common_ranking.
  unfold slice. rewrite !take_take. f_equal.
  rewrite !Nat.min_l by lia. done.
Qed.

(** For every ball count from 1 to 8 the stored recommendation slices
    the slot's frequency ranking: primary are ranks 1..b, backup ranks
    b+1..2b, extended ranks 1..3b, so extended begins with primary
    followed by backup and no number is recommended twice; other ball
    counts have no stored recommendation. *)
Theorem ball_recommendations_slices (self : config) (corrected : string)
    (group : list (list Z)) (b : nat) :
  let p := analyze_group self corrected group in
  let r := ranking (numbers_frequency p) in
  ((1 <= b <= 8)%nat ->
   exists rec,
     dict_get (ball_recommendations p) b = Some rec
     /\ primary rec = take b r
     /\ backup rec = drop b (take (b * 2) r)
     /\ extended rec = take (b * 3) r
     /\ primary rec ++ backup rec = take (b * 2) r
     /\ take (b * 2) (extended rec) = primary rec ++ backup rec
     /\ NoDup (extended rec))
  /\ (~ (1 <= b <= 8)%nat -> dict_get (ball_recommendations p) b = None).
Proof.
  intros p r. subst p r. rewrite analyze_group_ball_recommendations.
  set (r := ranking _).
  assert (Hnd : NoDup r) by apply ranking_NoDup, Counter_NoDup.
  split; intros Hb.
  - rewrite decide_True by (apply elem_of_seq; lia).
    eexists. split; [reflexivity |]. cbn [primary backup extended].
    assert (E : take b r ++ drop b (take (b * 2) r) = take (b * 2) r).
    { rewrite <- (take_drop b (take (b * 2) r)) at 2.
      rewrite take_take, Nat.min_l by lia. done. }
    split; [done |]. split; [done |]. split; [done |]. split; [done |].
    split.
    + rewrite E, take_take, Nat.min_l by lia. done.
    + eapply sublist_NoDup; [exact Hnd | apply sublist_take].
  - rewrite decide_False; [done |]. rewrite elem_of_seq. lia.
Qed.

Lemma ball_recommendations_slices_witness :
  exists rec,
    dict_get (ball_recommendations (analyze_group V5_CONFIG "07:58" sample_group)) 2%nat
      = Some rec
    /\ primary rec = [1; 2] /\ backup rec = [3; 4] /\ extended rec = [1; 2; 3; 4; 5; 6].
Proof.
  destruct (proj1 (ball_recommendations_slices V5_CONFIG "07:58" sample_group 2)
              ltac:(lia)) as (rec & H1 & H2 & H3 & H4 & _).
  exists rec. split; [exact H1 |]. rewrite H2, H3, H4.
  repeat split; vm_compute; reflexivity.
Defined.

Lemma analyze_group_hot_numbers self corrected group :
  hot_numbers (analyze_group self corrected group) =
  take (MAX_RECOMMENDATIONS self)
       (ranking (numbers_frequency (analyze_group self corrected group))).
Proof. cbn [analyze_group hot_numbers numbers_frequency]. apply most_common_ranking. Qed.

(** For every analysed slot and every ball count, stored or not, the
    recommendation returned for that ball count has as primary picks the
    first [ball_count] hot numbers; its backup and extended picks are
    the matching slices of the 15 hot numbers except where the stored
    lists reach beyond them (backup for 8 balls, extended for 6 to 8
    balls). *)
Theorem ball_recommendations_follow_hot_numbers (self : config) (corrected : string)
    (group : list (list Z)) (ball_count : nat) :
  MAX_RECOMMENDATIONS self = 15%nat ->
  let p := analyze_group self corrected group in
  exists rec,
    _get_v5_ball_recommendations p ball_count = [(ball_count, rec)]
    /\ primary rec = take ball_count (hot_numbers p)
    /\ (ball_count <> 8%nat ->
        backup rec = slice ball_count (ball_count * 2) (hot_numbers p))
    /\ ((ball_count < 6 \/ 8 < ball_count)%nat ->
        extended rec = take (ball_count * 3) (hot_numbers p)).
Proof.
  intros Hmax p. unfold _get_v5_ball_recommendations. subst p.
  rewrite analyze_group_ball_recommendations, analyze_group_hot_numbers, Hmax.
  set (r := ranking _).
  destruct (decide (ball_count ∈ seq 1 8)) as [Hb | Hb].
  - apply elem_of_seq in Hb. eexists. split; [reflexivity |].
    cbn [primary backup extended]. unfold slice.
    split; [by rewrite take_take, Nat.min_l by lia |].
    split; intros H; rewrite take_take, Nat.min_l by lia; done.
  - eexists. split; [reflexivity |]. cbn [primary backup extended]. done.
Qed.

Lemma ball_recommendations_follow_hot_numbers_witness :
  exists rec,
    _get_v5_ball_recommendations (analyze_group V5_CONFIG "07:58" sample_group) 9
      = [(9%nat, rec)]
    /\ primary rec = take 9 (hot_numbers (analyze_group V5_CONFIG "07:58" sample_group)).
Proof.
  destruct (ball_recommendations_follow_hot_numbers V5_CONFIG "07:58" sample_group 9
              eq_refl) as (rec & H1 & H2 & _).
  exists rec. split; [exact H1 | exact H2].
Defined.

(** ** More on the timing correction *)

(** The corrected key reads back as the shifted time of day. *)
Lemma timing_correction_parse (self : config) (r : row) :
  0 <= Hour r <= 23 -> 0 <= Minute r <= 59 ->
  -60 <= TIMING_OFFSET_MINUTES self <= 60 ->
  exists h m,
    parse_hhmm (_apply_timing_correction self r) = Some (h, m)
    /\ _apply_timing_correction self r = fmt02d h +:+ ":" +:+ fmt02d m
    /\ 0 <= h <= 23 /\ 0 <= m <= 59
    /\ 60 * h + m = (60 * Hour r + Minute r + TIMING_OFFSET_MINUTES self) mod 1440.
Proof.
  intros Hh Hm Ho.
  destruct (timing_correction_shape self r Hh Hm Ho) as (h & m & Heq & Hh' & Hm' & Hmod).
  exists h, m. rewrite Heq. split; [apply parse_hhmm_fmt; lia | auto].
Qed.

(** Within one day and for an offset of at most an hour either way,
    distinct raw times get distinct corrected time keys. *)
Theorem timing_correction_injective (self : config) (r1 r2 : row) :
  0 <= Hour r1 <= 23 -> 0 <= Minute r1 <= 59 ->
  0 <= Hour r2 <= 23 -> 0 <= Minute r2 <= 59 ->
  -60 <= TIMING_OFFSET_MINUTES self <= 60 ->
  _apply_timing_correction self r1 = _apply_timing_correction self r2 ->
  Hour r1 = Hour r2 /\ Minute r1 = Minute r2.
Proof.
  intros Hh1 Hm1 Hh2 Hm2 Ho Heq.
  destruct (timing_correction_parse self r1 Hh1 Hm1 Ho) as (h1 & m1 & P1 & _ & _ & _ & E1).
  destruct (timing_correction_parse self r2 Hh2 Hm2 Ho) as (h2 & m2 & P2 & _ & _ & _ & E2).
  rewrite Heq, P2 in P1. injection P1 as <- <-.
  set (off := TIMING_OFFSET_MINUTES self) in *.
  pose proof (Z.div_mod (60 * Hour r1 + Minute r1 + off) 1440 ltac:(lia)) as D1.
  pose proof (Z.div_mod (60 * Hour r2 + Minute r2 + off) 1440 ltac:(lia)) as D2.
  rewrite <- E1 in D1. rewrite <- E2 in D2. lia.
Qed.

Lemma timing_correction_injective_witness :
  Hour {| Hour := 0; Minute := 3 |} = Hour {| Hour := 0; Minute := 3 |}
  /\ Minute {| Hour := 0; Minute := 3 |} = Minute {| Hour := 0; Minute := 3 |}.
Proof.
  apply (timing_correction_injective V5_CONFIG {| Hour := 0; Minute := 3 |}
           {| Hour := 0; Minute := 3 |}); simpl; try lia. reflexivity.
Defined.

(** Round trip: correcting the corrected time by the opposite offset
    gives back the raw time key. *)
Theorem timing_correction_round_trip (self : config) (r : row) :
  0 <= Hour r <= 23 -> 0 <= Minute r <= 59 ->
  -60 <= TIMING_OFFSET_MINUTES self <= 60 ->
  exists h m,
    parse_hhmm (_apply_timing_correction self r) = Some (h, m)
    /\ _apply_timing_correction (with_offset (- TIMING_OFFSET_MINUTES self))
         {| Hour := h; Minute := m |}
       = fmt02d (Hour r) +:+ ":" +:+ fmt02d (Minute r).
Proof.
  intros Hh Hm Ho.
  destruct (timing_correction_parse self r Hh Hm Ho) as (h & m & P & _ & Hh' & Hm' & E).
  exists h, m. split; [exact P |].
  set (off := TIMING_OFFSET_MINUTES self) in *.
  destruct (timing_correction_shape (with_offset (- off)) {| Hour := h; Minute := m |})
    as (h' & m' & -> & Hh'' & Hm'' & E'); [simpl; lia ..|].
  simpl in E'.
  pose proof (Z.div_mod (60 * Hour r + Minute r + off) 1440 ltac:(lia)) as D1.
  pose proof (Z.div_mod (60 * h + m + - off) 1440 ltac:(lia)) as D2.
  rewrite <- E in D1. rewrite <- E' in D2.
  assert (h' = Hour r /\ m' = Minute r) as [-> ->] by lia. done.
Qed.

Lemma timing_correction_round_trip_witness :
  exists h m,
    parse_hhmm (_apply_timing_correction V5_CONFIG {| Hour := 0; Minute := 3 |}) = Some (h, m)
    /\ _apply_timing_correction (with_offset (- TIMING_OFFSET_MINUTES V5_CONFIG))
         {| Hour := h; Minute := m |}
       = fmt02d 0 +:+ ":" +:+ fmt02d 3.
Proof.
  apply (timing_correction_round_trip V5_CONFIG {| Hour := 0; Minute := 3 |});
    simpl; lia.
Defined.

(** ** Which slots and windows the analyses store *)

Lemma analyze_exact_time_patterns_v5_keeps self groups time_key :
  is_Some (dict_get (time_patterns self) time_key) ->
  is_Some (dict_get (time_patterns (analyze_exact_time_patterns_v5 self groups)) time_key).
Proof.
  revert self. unfold analyze_exact_time_patterns_v5.
  induction groups as [| [[k c] g] groups IH]; intros self Hs; [done |].
  cbn [foldl]. apply IH. destruct (_ <=? _)%nat; [| done].
  cbn [time_patterns]. rewrite dict_get_set. by destruct (decide (k = time_key)).
Qed.

Lemma analyze_exact_time_patterns_v5_stores self groups time_key corrected group :
  ((time_key, corrected), group) ∈ groups ->
  (MIN_DRAWS_FOR_ANALYSIS (V5 self) <= length group)%nat ->
  is_Some (dict_get (time_patterns (analyze_exact_time_patterns_v5 self groups)) time_key).
Proof.
  revert self. induction groups as [| [[k c] g] groups IH]; intros self Hin Hmin.
  - by apply elem_of_nil in Hin.
  - apply elem_of_cons in Hin as [[= <- <- <-] | Hin].
    + unfold analyze_exact_time_patterns_v5. cbn [foldl].
      apply analyze_exact_time_patterns_v5_keeps.
      destruct (Nat.leb_spec (MIN_DRAWS_FOR_ANALYSIS (V5 self)) (length group)); [| lia].
      cbn [time_patterns]. rewrite dict_get_set, decide_True by done. by eexists.
    + unfold analyze_exact_time_patterns_v5. cbn [foldl].
      apply IH; [done |]. by destruct (_ <=? _)%nat.
Qed.

(** Starting from an analyzer without slots, the exact-time analysis
    stores a slot for a time key exactly when some group with that key
    has at least the minimum number of draws, and every stored slot is
    the analysis of such a group, so no stored slot has fewer draws. *)
Theorem stored_slots_are_qualifying_groups (self : analyzer) (groups : time_groups)
    (time_key : string) :
  time_patterns self = [] ->
  let stored := time_patterns (analyze_exact_time_patterns_v5 self groups) in
  (is_Some (dict_get stored time_key) <->
   exists corrected group,
     ((time_key, corrected), group) ∈ groups
     /\ (MIN_DRAWS_FOR_ANALYSIS (V5 self) <= length group)%nat)
  /\ (forall p, dict_get stored time_key = Some p ->
        (MIN_DRAWS_FOR_ANALYSIS (V5 self) <= total_draws p)%nat
        /\ exists corrected group,
             ((time_key, corrected), group) ∈ groups
             /\ p = analyze_group (V5 self) corrected group).
Proof.
  intros Hempty stored. subst stored. split; [split |].
  - intros [p Hp]. apply analyze_exact_time_patterns_v5_lookup in Hp
      as [Hp | (c & g & Hin & Hmin & _)]; [by rewrite Hempty in Hp |].
    by exists c, g.
  - intros (c & g & Hin & Hmin). by eapply analyze_exact_time_patterns_v5_stores.
  - intros p Hp. apply analyze_exact_time_patterns_v5_lookup in Hp
      as [Hp | (c & g & Hin & Hmin & ->)]; [by rewrite Hempty in Hp |].
    split; [done |]. by exists c, g.
Qed.

Lemma stored_slots_are_qualifying_groups_witness :
  is_Some (dict_get (time_patterns (analyze_exact_time_patterns_v5 empty_analyzer
                                       sample_groups)) "08:03")
  <-> exists corrected group,
        (("08:03", corrected), group) ∈ sample_groups
        /\ (MIN_DRAWS_FOR_ANALYSIS (V5 empty_analyzer) <= length group)%nat.
Proof.
  exact (proj1 (stored_slots_are_qualifying_groups empty_analyzer sample_groups
                  "08:03" eq_refl)).
Defined.

Lemma analyze_time_window_patterns_v5_lookup self window_groups window w :
  dict_get (time_window_patterns (analyze_time_window_patterns_v5 self window_groups))
           window = Some w ->
  dict_get (time_window_patterns self) window = Some w
  \/ exists group,
       (window, group) ∈ window_groups /\ (8 <= length group)%nat
       /\ w = analyze_window group.
Proof.
  revert self. unfold analyze_time_window_patterns_v5.
  induction window_groups as [| [k g] gs IH]; intros self; [by left |].
  cbn [foldl]. intros Hget. apply IH in Hget as [Hget | (g' & Hin & Hmin & ->)].
  - destruct (Nat.leb_spec 8 (length g)) as [Hmin | Hlt]; [| by left].
    cbn [time_window_patterns] in Hget. rewrite dict_get_set in Hget.
    destruct (decide (k = window)) as [-> | Hne]; [| by left].
    injection Hget as <-. right. exists g.
    split; [apply elem_of_cons; by left | done].
  - right. exists g'. split; [apply elem_of_cons; by right | done].
Qed.

(** Starting from an analyzer without windows, every stored window is
    the analysis of a window group of at least 8 draws; its consistency
    score lies in [0, 100]. *)
Theorem stored_windows_have_eight_draws (self : analyzer)
    (window_groups : list (string * list (list Z))) (window : string)
    (w : window_pattern) :
  time_window_patterns self = [] ->
  dict_get (time_window_patterns (analyze_time_window_patterns_v5 self window_groups))
           window = Some w ->
  (8 <= w_total_draws w)%nat
  /\ (0 <= w_consistency_score w <= 100)%Q
  /\ exists group, (window, group) ∈ window_groups /\ w = analyze_window group.
Proof.
  intros Hempty Hget. apply analyze_time_window_patterns_v5_lookup in Hget
    as [Hget | (g & Hin & Hmin & ->)]; [by rewrite Hempty in Hget |].
  split; [done |]. split; [apply _calculate_window_consistency_v5_bounds |].
  by exists g.
Qed.

Lemma stored_windows_have_eight_draws_witness :
  (8 <= w_total_draws (analyze_window sample_window))%nat
  /\ (0 <= w_consistency_score (analyze_window sample_window) <= 100)%Q
  /\ exists group,
       ("09:45-09:49", group) ∈ [("09:45-09:49", sample_window)]
       /\ analyze_window sample_window = analyze_window group.
Proof.
  apply (stored_windows_have_eight_draws empty_analyzer
           [("09:45-09:49", sample_window)] "09:45-09:49" (analyze_window sample_window)
           eq_refl).
  unfold analyze_time_window_patterns_v5. cbn [foldl]. simpl length.
  cbn [Nat.leb time_window_patterns empty_analyzer dict_set dict_get].
  by rewrite decide_True by done.
Defined.

(** ** Recommendations *)

Section generate_facts.
Context (self : analyzer) (ball_count : option nat).

(** One round of the loop over [times_to_analyze]. *)
Let step (recommendations : list (string * recommendation)) (time_key : string) :=
  match dict_get (time_patterns self) time_key with
  | Some pattern_data =>
      dict_set time_key (recommendation_entry self ball_count time_key pattern_data)
               recommendations
  | None => recommendations
  end.

Lemma generate_loop_lookup (times : list string) acc k :
  dict_get (foldl step acc times) k =
  match dict_get (time_patterns self) k with
  | Some p =>
      if decide (k ∈ times) then Some (recommendation_entry self ball_count k p)
      else dict_get acc k
  | None => dict_get acc k
  end.
Proof.
  revert acc. induction times as [| t times IH]; intros acc.
  - cbn [foldl]. destruct (dict_get (time_patterns self) k); [| done].
    destruct (decide (k ∈ [])) as [H | _]; [by apply elem_of_nil in H | done].
  - cbn [foldl]. rewrite IH. unfold step.
    destruct (dict_get (time_patterns self) k) as [p |] eqn:Ek.
    + destruct (decide (k ∈ times)) as [Hin | Hnin].
      * destruct (decide (k ∈ t :: times)) as [_ | H]; [done |].
        exfalso. apply H, elem_of_cons. by right.
      * destruct (decide (t = k)) as [-> | Hne].
        -- rewrite Ek, dict_get_set, decide_True by done.
           destruct (decide (k ∈ k :: times)) as [_ | H]; [done |].
           exfalso. apply H, elem_of_cons. by left.
        -- destruct (decide (k ∈ t :: times)) as [H | _].
           { apply elem_of_cons in H as [-> | ?]; done. }
           destruct (dict_get (time_patterns self) t); [| done].
           by rewrite dict_get_set, decide_False.
    + destruct (dict_get (time_patterns self) t) eqn:Et; [| done].
      rewrite dict_get_set. destruct (decide (t = k)) as [-> | ?]; [| done].
      congruence.
Qed.

Lemma dict_set_length {V : Type} (k : string) (v : V) (d : list (string * V)) :
  (length (dict_set k v d) <= S (length d))%nat.
Proof.
  induction d as [| [k' v'] d IH]; simpl; [lia |].
  destruct (decide (k' = k)); simpl; lia.
Qed.

Lemma generate_loop_length (times : list string) acc :
  (length (foldl step acc times) <= length acc + length times)%nat.
Proof.
  revert acc. induction times as [| t times IH]; intros acc; cbn [foldl]; [simpl; lia |].
  etransitivity; [apply IH |]. unfold step.
  destruct (dict_get (time_patterns self) t); simpl; [| lia].
  pose proof (dict_set_length t (recommendation_entry self ball_count t p) acc). lia.
Qed.
End generate_facts.

(** Without a target time, and also with the empty string as target,
    the recommendations are exactly the entries of the first five ranked
    time keys that have a slot: at most five entries, each built from
    its slot (confidence of that slot, at most 15 hot numbers, at most 5
    combinations). *)
Theorem recommendations_default_top_five (self : analyzer) (target_time : option string)
    (ball_count : option nat) :
  target_time = None \/ target_time = Some "" ->
  let result := generate_v5_recommendations self target_time ball_count in
  (length result <= 5)%nat
  /\ forall time_key,
       dict_get result time_key =
       match dict_get (time_patterns self) time_key with
       | Some p =>
           if decide (time_key ∈ take 5 (optimal_times self))
           then Some (recommendation_entry self ball_count time_key p)
           else None
       | None => None
       end.
Proof.
  intros Htarget result.
  assert (Hres : result =
    foldl (fun recommendations time_key =>
             match dict_get (time_patterns self) time_key with
             | Some pattern_data =>
                 dict_set time_key
                   (recommendation_entry self ball_count time_key pattern_data)
                   recommendations
             | None => recommendations
             end) [] (take 5 (optimal_times self))).
  { unfold result, generate_v5_recommendations. by destruct Htarget as [-> | ->]. }
  rewrite Hres. split.
  - etransitivity; [apply generate_loop_length |]. simpl. rewrite length_take. lia.
  - intros k. rewrite generate_loop_lookup. simpl.
    destruct (dict_get (time_patterns self) k); done.
Qed.

Lemma recommendations_default_top_five_witness :
  (length (generate_v5_recommendations sample_analyzer (Some "") None) <= 5)%nat
  /\ forall time_key,
       dict_get (generate_v5_recommendations sample_analyzer (Some "") None) time_key =
       match dict_get (time_patterns sample_analyzer) time_key with
       | Some p =>
           if decide (time_key ∈ take 5 (optimal_times sample_analyzer))
           then Some (recommendation_entry sample_analyzer None time_key p)
           else None
       | None => None
       end.
Proof.
  apply (recommendations_default_top_five sample_analyzer (Some "") None). by right.
Defined.

(** For a non-empty target time that has a slot, the result holds
    exactly one entry, keyed by the target and built from its slot,
    whether or not the target is ranked. *)
Theorem recommendations_for_known_key (self : analyzer) (target_time : string)
    (ball_count : option nat) (p : pattern) :
  target_time <> "" ->
  dict_get (time_patterns self) target_time = Some p ->
  generate_v5_recommendations self (Some target_time) ball_count =
    [(target_time, recommendation_entry self ball_count target_time p)].
Proof.
  intros Hne Hp. unfold generate_v5_recommendations, truthy_str.
  destruct (String.eqb_spec target_time "") as [-> | _]; [done |].
  cbn [negb]. rewrite Hp.
  destruct (decide (is_Some (Some p))) as [_ | H]; [| exfalso; apply H; by eexists].
  cbn [foldl]. rewrite Hp. reflexivity.
Qed.

Lemma recommendations_for_known_key_witness :
  generate_v5_recommendations sample_analyzer (Some "08:03") (Some 4%nat) =
    [("08:03", recommendation_entry sample_analyzer (Some 4%nat) "08:03"
                 (analyze_group V5_CONFIG "07:58" sample_group))].
Proof.
  apply (recommendations_for_known_key sample_analyzer "08:03" (Some 4%nat)).
  - discriminate.
  - vm_compute. reflexivity.
Defined.

Lemma take_then_next {A : Type} (b : nat) (l : list A) :
  take b l ++ drop b (take (b * 2) l) = take (b * 2) l.
Proof.
  rewrite <- (take_drop b (take (b * 2) l)) at 2.
  by rewrite take_take, Nat.min_l by lia.
Qed.

(** ** The generated patterns module *)

Lemma dict_get_take {V : Type} (n : nat) (d : list (string * V)) (k : string) (v : V) :
  dict_get (take n d) k = Some v -> dict_get d k = Some v.
Proof.
  revert n. induction d as [| [k' v'] d IH]; intros [| n]; simpl; try done.
  destruct (decide (k' = k)); [done | apply IH].
Qed.

Lemma Qmin_add_bounds x t M :
  (0 <= t)%Q -> (Qmin x M <= Qmin (x + t) M)%Q /\ (Qmin (x + t) M <= Qmin x M + t)%Q.
Proof.
  intros Ht.
  destruct (Q.min_spec x M) as [[H1 ->] | [H1 ->]];
    destruct (Q.min_spec (x + t) M) as [[H2 ->] | [H2 ->]]; split; lra.
Qed.

(** The generated helper leaves out the timing boost: for a slot that
    the module holds, its confidence is at most the analyzer's, by no
    more than 5, and equal when the corrected key equals the raw key;
    for a key the module does not hold it is 60. *)
Theorem module_confidence_vs_analyzer (self : analyzer) (time_key : string) :
  let m := _generate_v5_python_config self in
  (dict_get (TIME_PATTERNS m) time_key = None ->
   calculate_v5_confidence m time_key = 60%Q)
  /\ (forall p, dict_get (TIME_PATTERNS m) time_key = Some p ->
        dict_get (time_patterns self) time_key = Some p
        /\ (calculate_v5_confidence m time_key
            <= _calculate_v5_confidence self p time_key)%Q
        /\ (_calculate_v5_confidence self p time_key
            <= calculate_v5_confidence m time_key + 5)%Q
        /\ (corrected_time p = time_key ->
            (_calculate_v5_confidence self p time_key
             == calculate_v5_confidence m time_key)%Q)).
Proof.
  intros m. split.
  - intros Hnone. unfold calculate_v5_confidence. by rewrite Hnone.
  - intros p Hp. split; [by apply dict_get_take in Hp |].
    unfold calculate_v5_confidence, _calculate_v5_confidence. rewrite Hp.
    cbn [m _generate_v5_python_config M_V5_CONFIG OPTIMAL_TIMES].
    rewrite take_take. change (5 `min` 10)%nat with 5%nat.
    set (f := CONFIDENCE_FACTORS (V5 self)).
    set (x := (BASE_CONFIDENCE f + Qmin (QofN (total_draws p) * DRAW_MULTIPLIER f) 25
               + consistency_score p * CONSISTENCY_MULTIPLIER f
               + QofN (length (frequent_combinations p)) * COMBINATION_MULTIPLIER f)%Q).
    set (ob := (if decide (time_key ∈ take 5 (optimal_times self)) then 10 else 0)%Q).
    destruct (decide (corrected_time p <> time_key)) as [Hne | Heq].
    + assert (E : (x + 5 + ob == (x + ob) + 5)%Q) by ring.
      rewrite E. destruct (Qmin_add_bounds (x + ob) 5 (MAX_CONFIDENCE f)) as [H1 H2];
        [discriminate |].
      split; [exact H1 |]. split; [exact H2 |]. intros Heq. done.
    + assert (E : (x + 0 + ob == x + ob)%Q) by ring.
      rewrite E. split; [apply Qle_refl |]. split; [| reflexivity].
      generalize (Qmin (x + ob) (MAX_CONFIDENCE f)). intros y. lra.
Qed.

Lemma module_confidence_vs_analyzer_witness :
  (calculate_v5_confidence (_generate_v5_python_config sample_analyzer) "08:03"
   <= _calculate_v5_confidence sample_analyzer
        (analyze_group V5_CONFIG "07:58" sample_group) "08:03")%Q.
Proof.
  exact (proj1 (proj2 (proj2 (module_confidence_vs_analyzer sample_analyzer "08:03")
                         (analyze_group V5_CONFIG "07:58" sample_group)
                         ltac:(vm_compute; reflexivity)))).
Defined.

Lemma dict_get_json_keys {V : Type} (d : list (nat * V)) (n : nat) :
  dict_get (json_keys d) (KInt n) = None.
Proof.
  unfold json_keys. induction d as [| [k v] d IH]; csimpl; [done |].
  destruct (decide (KStr (pretty k) = KInt n)); [done | exact IH].
Qed.

(** In the generated module the multiplier table is keyed by strings, so
    the helper finds no multiplier for any integer ball count and
    reports 0, and a key without data gets the fallback answer with at
    most twice [ball_count] globally hot numbers and confidence 60. *)
Theorem module_answer_shape (self : analyzer) (time_key : string) (ball_count : nat) :
  let m := _generate_v5_python_config self in
  match get_v5_recommendations m time_key ball_count with
  | NoData _ fallback_numbers confidence =>
      dict_get (TIME_PATTERNS m) time_key = None
      /\ fallback_numbers = take (ball_count * 2) (always_hot self)
      /\ (length fallback_numbers <= Nat.min (ball_count * 2) 10)%nat
      /\ confidence = 60%Q
  | Numbers primary_numbers backup_numbers extended_numbers confidence _ _
            multiplier combinations _ =>
      (exists p, dict_get (time_patterns self) time_key = Some p
                 /\ extended_numbers = take (ball_count * 3) (hot_numbers p)
                 /\ primary_numbers ++ backup_numbers
                    = take (ball_count * 2) extended_numbers)
      /\ multiplier = 0%Q
      /\ confidence = calculate_v5_confidence m time_key
      /\ (length combinations <= 3)%nat
  end.
Proof.
  intros m. unfold get_v5_recommendations.
  destruct (dict_get (TIME_PATTERNS m) time_key) as [p |] eqn:Hp.
  - split; [| split; [| split]].
    + exists p. split; [by apply dict_get_take in Hp |]. split; [done |].
      unfold slice. apply take_then_next.
    + unfold module_multiplier. by rewrite dict_get_json_keys.
    + done.
    + rewrite length_take. lia.
  - split; [done |]. split; [done |]. split; [| done].
    cbn [m _generate_v5_python_config ALWAYS_HOT_NUMBERS].
    rewrite length_take. unfold always_hot.
    rewrite length_fmap, most_common_length. lia.
Qed.

(** The suggested ball count never decreases with the risk tolerance
    (low, then medium or any other word, then high), stays between 1 and
    6 for a known time key, and is the default count for an unknown
    one. *)
Theorem optimal_ball_count_by_risk (m : patterns_module) (time_key : string) :
  (dict_get (TIME_PATTERNS m) time_key = None ->
   forall risk, get_optimal_ball_count m time_key risk = DEFAULT_BALL_COUNT (M_V5_CONFIG m))
  /\ (is_Some (dict_get (TIME_PATTERNS m) time_key) ->
      (1 <= get_optimal_ball_count m time_key "low")%nat
      /\ (get_optimal_ball_count m time_key "low"
          <= get_optimal_ball_count m time_key "medium")%nat
      /\ (get_optimal_ball_count m time_key "medium"
          <= get_optimal_ball_count m time_key "high")%nat
      /\ (get_optimal_ball_count m time_key "high" <= 6)%nat
      /\ forall risk, risk <> "low" -> risk <> "high" ->
           get_optimal_ball_count m time_key risk
           = get_optimal_ball_count m time_key "medium").
Proof.
  unfold get_optimal_ball_count. split.
  - intros -> risk. done.
  - intros [p ->]. cbn [String.eqb Ascii.eqb Bool.eqb].
    set (c := calculate_v5_confidence m time_key).
    repeat split.
    + destruct (Qle_bool 80 c), (Qle_bool 70 c); lia.
    + destruct (Qle_bool 80 c), (Qle_bool 70 c); lia.
    + destruct (Qle_bool 80 c), (Qle_bool 70 c), (Qle_bool 85 c), (Qle_bool 75 c); lia.
    + destruct (Qle_bool 85 c), (Qle_bool 75 c); lia.
    + intros risk Hl Hh.
      destruct (String.eqb_spec risk "low"); [done |].
      destruct (String.eqb_spec risk "high"); done.
Qed.

Lemma optimal_ball_count_by_risk_witness :
  (get_optimal_ball_count (_generate_v5_python_config sample_analyzer) "08:03" "low"
   <= get_optimal_ball_count (_generate_v5_python_config sample_analyzer) "08:03" "medium")%nat.
Proof.
  exact (proj1 (proj2 (proj2 (optimal_ball_count_by_risk
                                (_generate_v5_python_config sample_analyzer) "08:03")
                         ltac:(vm_compute; eexists; reflexivity)))).
Defined.

(** ** Global hot and cold numbers *)

Lemma counter_add_entries_NoDup (es g : list (Z * nat)) :
  NoDup g.*1 -> NoDup (foldl (fun g (e : Z * nat) => counter_add e.1 e.2 g) g es).*1.
Proof.
  revert g. induction es as [| e es IH]; intros g Hg; [done |].
  cbn [foldl]. by apply IH, counter_add_NoDup.
Qed.

Lemma counter_get_add_entries (es g : list (Z * nat)) (k : Z) :
  NoDup es.*1 ->
  counter_get (foldl (fun g (e : Z * nat) => counter_add e.1 e.2 g) g es) k
  = (counter_get g k + counter_get es k)%nat.
Proof.
  revert g. induction es as [| [k' n] es IH]; intros g Hnd.
  - simpl. lia.
  - apply NoDup_cons in Hnd as [Hk' Hnd]. cbn [foldl].
    rewrite IH, counter_get_add by done. cbn [fst snd counter_get].
    destruct (decide (k' = k)) as [-> | Hne]; [| done].
    rewrite (counter_get_zero es k) by done. lia.
Qed.

Lemma global_frequency_NoDup self : NoDup (global_frequency self).*1.
Proof.
  unfold global_frequency. generalize (time_patterns self).*2.
  assert (H : NoDup (@nil (Z * nat)).*1) by constructor. revert H.
  generalize (@nil (Z * nat)). intros g Hg ps. revert g Hg.
  induction ps as [| p ps IH]; intros g Hg; [done |].
  cbn [foldl]. by apply IH, counter_add_entries_NoDup.
Qed.

(** The global count of a number is the sum of its counts over all
    stored slots. *)
Theorem global_frequency_sums_slots (self : analyzer) (k : Z) :
  Forall (fun kp => NoDup (numbers_frequency kp.2).*1) (time_patterns self) ->
  counter_get (global_frequency self) k
  = sum_list ((fun kp => counter_get (numbers_frequency kp.2) k) <$> time_patterns self).
Proof.
  unfold global_frequency. intros Hnd.
  assert (G : forall g,
    counter_get
      (foldl (fun g p =>
                foldl (fun g (e : Z * nat) => counter_add e.1 e.2 g) g (numbers_frequency p))
             g (time_patterns self).*2) k
    = (counter_get g k
       + sum_list ((fun kp => counter_get (numbers_frequency kp.2) k)
                     <$> time_patterns self))%nat).
  { induction Hnd as [| [key p] ps Hp _ IH]; intros g; [simpl; lia |].
    csimpl. rewrite IH, counter_get_add_entries by done. lia. }
  rewrite G. done.
Qed.

Lemma global_frequency_sums_slots_witness :
  counter_get (global_frequency sample_analyzer) 1 = 4%nat.
Proof.
  rewrite (global_frequency_sums_slots sample_analyzer 1).
  - vm_compute. reflexivity.
  - apply (bool_decide_unpack _). vm_compute. exact I.
Defined.

(** With at least twenty distinct numbers overall, the ten always-hot
    and the ten always-cold numbers are disjoint and every hot number
    has a global count at least that of every cold number. *)
Theorem always_hot_dominates_cold (self : analyzer) :
  (20 <= length (global_frequency self))%nat ->
  length (always_hot self) = 10%nat
  /\ length (always_cold self) = 10%nat
  /\ (forall x, x ∈ always_hot self -> x ∉ always_cold self)
  /\ (forall h c,
        h ∈ always_hot self -> c ∈ always_cold self ->
        (counter_get (global_frequency self) c
         <= counter_get (global_frequency self) h)%nat).
Proof.
  intros Hlen. unfold always_hot, always_cold, last_n, most_common_all, most_common.
  set (G := global_frequency self) in *.
  set (S := sorted_desc snd G).
  assert (HS : length S = length G) by apply sorted_desc_length.
  assert (Hnd : NoDup S.*1).
  { unfold S. rewrite sorted_desc_perm. apply global_frequency_NoDup. }
  assert (Hcold : forall e, e ∈ drop (length S - 10) S -> e ∈ drop 10 S).
  { intros e He. replace (length S - 10)%nat with (10 + (length S - 20))%nat in He by lia.
    rewrite <- drop_drop in He. eapply elem_of_sublist; [exact He | apply sublist_drop]. }
  assert (Hget : forall e, e ∈ S -> counter_get G e.1 = e.2).
  { intros [k n] He. apply counter_get_entry; [apply global_frequency_NoDup |].
    by apply (sorted_desc_elem_of snd). }
  split; [rewrite length_fmap, length_take; lia |].
  split; [rewrite length_fmap, length_drop; lia |].
  split.
  - intros x Hx Hx'.
    apply list_elem_of_fmap in Hx as (e1 & -> & H1).
    apply list_elem_of_fmap in Hx' as (e2 & E & H2). apply Hcold in H2.
    rewrite <- (take_drop 10 S), fmap_app in Hnd.
    apply NoDup_app in Hnd as (_ & Hdisj & _).
    apply (Hdisj e1.1); [by apply list_elem_of_fmap_2 |].
    rewrite E. by apply list_elem_of_fmap_2.
  - intros h c Hh Hc.
    apply list_elem_of_fmap in Hh as (e1 & -> & H1).
    apply list_elem_of_fmap in Hc as (e2 & -> & H2). apply Hcold in H2.
    rewrite !Hget.
    + apply (sorted_take_drop_key snd 10 G e1 e2 H1 H2).
    + eapply elem_of_sublist; [exact H1 | apply sublist_take].
    + eapply elem_of_sublist; [exact H2 | apply sublist_drop].
Qed.

Lemma always_hot_dominates_cold_witness :
  length (always_hot full_analyzer) = 10%nat
  /\ length (always_cold full_analyzer) = 10%nat
  /\ (forall x, x ∈ always_hot full_analyzer -> x ∉ always_cold full_analyzer)
  /\ (forall h c,
        h ∈ always_hot full_analyzer -> c ∈ always_cold full_analyzer ->
        (counter_get (global_frequency full_analyzer) c
         <= counter_get (global_frequency full_analyzer) h)%nat).
Proof.
  apply (always_hot_dominates_cold full_analyzer). vm_compute. lia.
Defined.

(** ** Saturation of the exact-time score *)

(** A group with at least one number and at most ten distinct numbers
    has exact-time consistency score 100: its ten most frequent numbers
    account for every observation. *)
Theorem consistency_saturates (draws_list : list (list Z)) :
  (0 < length (concat draws_list))%nat ->
  (length (Counter (concat draws_list)) <= 10)%nat ->
  (group_consistency draws_list == 100)%Q.
Proof.
  intros Hpos Hdistinct. unfold group_consistency, _calculate_v5_consistency.
  destruct draws_list as [| d ds]; [simpl in Hpos; lia |].
  rewrite <- length_concat_sum.
  set (l := concat (d :: ds)) in *.
  destruct (Nat.ltb_spec 0 (length l)) as [_ | ?]; [| lia].
  assert (HT : sum_list (map snd (most_common 10 (Counter l))) = length l).
  { unfold most_common. rewrite take_ge by (by rewrite sorted_desc_length).
    change (map snd ?x) with (x.*2). by rewrite sorted_desc_perm, Counter_sum. }
  rewrite HT.
  assert (E : (QofN (length l) / QofN (length l) * 100 == 100)%Q).
  { unfold Qdiv. rewrite Qmult_inv_r; [reflexivity |].
    intros H0. pose proof (QofN_pos _ Hpos) as Hp. rewrite H0 in Hp. discriminate. }
  rewrite E. apply Q.min_r.
  apply (Qplus_le_compat 100 100 0 _); [apply Qle_refl |].
  apply Qmin_nonneg; [| discriminate].
  apply Qdiv_nonneg; [apply QofN_nonneg | discriminate].
Qed.

Lemma consistency_saturates_witness : (group_consistency tie_group == 100)%Q.
Proof.
  apply (consistency_saturates tie_group); vm_compute; lia.
Defined.

(** ** Emitted combinations come from the draws *)

Lemma combinations_sublist {A : Type} (l : list A) (k : nat) (c : list A) :
  c ∈ combinations l k -> c `sublist_of` l.
Proof.
  revert k c. induction l as [| x l IH]; intros [| k] c; simpl.
  - intros ->%list_elem_of_singleton. constructor.
  - by intros ?%elem_of_nil.
  - intros ->%list_elem_of_singleton. apply sublist_nil_l.
  - rewrite elem_of_app. intros [Hc | Hc].
    + apply list_elem_of_fmap in Hc as (c' & -> & Hc').
      apply sublist_skip. by eapply IH.
    + apply sublist_cons. by eapply IH.
Qed.

Lemma insert_asc_sorted x l : Sorted Z.le l -> Sorted Z.le (insert_asc x l).
Proof.
  induction 1 as [| y l Hl IH Hy]; simpl; [repeat constructor |].
  destruct (Z.leb_spec y x) as [Hle | Hgt].
  - constructor; [done |]. destruct l as [| z l]; simpl in *.
    + by constructor.
    + destruct (Z.leb_spec z x); constructor; [by inversion Hy | done].
  - constructor; [by constructor |]. constructor. lia.
Qed.

Lemma sorted_asc_sorted l : Sorted Z.le (sorted_asc l).
Proof.
  induction l as [| x l IH]; [constructor |]. by apply insert_asc_sorted.
Qed.

(** Every emitted combination is in ascending order and all its
    numbers occur together in at least one draw of the group. *)
Theorem combinations_come_from_draws (draws_list : list (list Z)) (cb : combo) :
  cb ∈ _analyze_v5_combinations draws_list ->
  Sorted Z.le (numbers cb)
  /\ exists draw, draw ∈ draws_list /\ numbers cb ⊆+ draw.
Proof.
  intros Hcb. apply _analyze_v5_combinations_elem_of in Hcb.
  apply frequent_combos_elem_of in Hcb as (_ & Hin & _).
  apply Counter_entry in Hin as [_ Hsub].
  apply elem_of_concat in Hsub as (subs & Hsubs & Hc).
  apply list_elem_of_fmap in Hsubs as (draw & -> & Hdraw).
  assert (H : exists c' k, numbers cb = sorted_asc c' /\ c' ∈ combinations draw k).
  { unfold draw_subsets in Hc. apply elem_of_app in Hc as [Hc | Hc].
    - apply list_elem_of_fmap in Hc as (c' & -> & Hc'). eauto.
    - destruct (3 <=? length draw)%nat; [| by apply elem_of_nil in Hc].
      apply list_elem_of_fmap in Hc as (c' & -> & Hc'). eauto. }
  destruct H as (c' & k & -> & Hc'). split; [apply sorted_asc_sorted |].
  exists draw. split; [done |].
  rewrite sorted_asc_perm. apply sublist_submseteq. by eapply combinations_sublist.
Qed.

Lemma combinations_come_from_draws_witness :
  Sorted Z.le [1; 2] /\ exists draw, draw ∈ pair_draws /\ [1; 2] ⊆+ draw.
Proof.
  apply (combinations_come_from_draws pair_draws
           {| numbers := [1; 2]; frequency := 2; percentage := 200 # 3 |}).
  apply list_elem_of_In. vm_compute. auto.
Defined.

(** ** Multiplier potential *)

Lemma occurrences_NoDup_le (k : Z) (d : list Z) : NoDup d -> (occurrences k d <= 1)%nat.
Proof.
  induction 1 as [| x d Hx Hd IH]; [unfold occurrences; simpl; lia |].
  rewrite occurrences_cons. destruct (decide (x = k)) as [-> | _]; [| done].
  destruct (Nat.eq_0_gt_0_cases (occurrences k d)) as [-> | Hpos]; [lia |].
  by apply occurrences_pos in Hpos.
Qed.

Lemma occurrences_concat_le (k : Z) (draws : list (list Z)) :
  Forall NoDup draws -> (occurrences k (concat draws) <= length draws)%nat.
Proof.
  induction 1 as [| d ds Hd _ IH]; [unfold occurrences; simpl; lia |].
  simpl. rewrite occurrences_app. pose proof (occurrences_NoDup_le k d Hd). lia.
Qed.

Lemma sum_list_bounded {A : Type} (f : A -> nat) (l : list A) (n : nat) :
  (forall x, x ∈ l -> (f x <= n)%nat) ->
  (sum_list (map f l) <= length l * n)%nat.
Proof.
  induction l as [| x l IH]; intros H; simpl; [lia |].
  pose proof (H x ltac:(apply elem_of_cons; by left)).
  specialize (IH ltac:(intros y Hy; apply H, elem_of_cons; by right)). lia.
Qed.

(** For a slot whose draws never repeat a number, the multiplier
    potential has one entry per ball count 1..8, in that order, each
    with the configured multiplier, a success rate in [0, 100] and
    expected value success_rate * multiplier / 100. *)
Theorem multiplier_potential_rates (self : config) (corrected : string)
    (group : list (list Z)) :
  Forall NoDup group ->
  let p := analyze_group self corrected group in
  (multiplier_potential p).*1 = seq 1 8
  /\ forall b e, (b, e) ∈ multiplier_potential p ->
       multiplier e = multiplier_for self b
       /\ (0 <= success_rate e <= 100)%Q
       /\ (expected_value e == success_rate e * multiplier e / 100)%Q.
Proof.
  intros Hnd p. subst p. cbn [analyze_group multiplier_potential].
  unfold _calculate_multiplier_potential.
  set (nf := Counter (concat (map sorted_asc group))).
  split.
  - generalize (seq 1 8). intros l. induction l as [| b l IH]; [done |].
    csimpl. rewrite IH. f_equal. by destruct (map fst (most_common b nf)).
  - intros b e Hin. apply list_elem_of_In, in_map_iff in Hin as (b' & Heq & _).
    assert (Hcount : forall k, (counter_get nf k <= length group)%nat).
    { intros k. unfold nf. rewrite Counter_get.
      rewrite (occurrences_Permutation _ _ _ (concat_sorted_asc_perm group)).
      by apply occurrences_concat_le. }
    destruct (map fst (most_common b' nf)) as [| x top] eqn:Etop.
    + injection Heq as <- <-. cbn [multiplier success_rate expected_value].
      split; [done |]. split; [split; discriminate | reflexivity].
    + injection Heq as <- <-. cbn [multiplier success_rate expected_value].
      split; [done |]. split; [| unfold Qdiv; ring].
      set (tops := x :: top) in *.
      pose proof (sum_list_bounded (counter_get nf) tops (length group)
                    (fun y _ => Hcount y)) as Hsum.
      destruct (Nat.ltb_spec 0 (length group)) as [Hpos | _];
        [| split; [apply Qle_refl | discriminate]].
      assert (Hlen : (0 < length tops)%nat) by (simpl; lia).
      split.
      * apply Qmult_le_0_compat; [| discriminate].
        apply Qdiv_nonneg; [| apply QofN_nonneg].
        apply Qdiv_nonneg; apply QofN_nonneg.
      * assert (H1 : (QofN (sum_list (map (counter_get nf) tops)) / QofN (length tops)
                      / QofN (length group) <= 1)%Q).
        { apply Qle_shift_div_r; [by apply QofN_pos |].
          apply Qle_shift_div_r; [by apply QofN_pos |].
          rewrite Qmult_1_l, <- QofN_mult. apply QofN_le. lia. }
        apply (Qmult_le_compat_r _ _ 100) in H1; [| discriminate].
        exact H1.
Qed.

Lemma multiplier_potential_rates_witness :
  (multiplier_potential (analyze_group V5_CONFIG "07:58" sample_group)).*1 = seq 1 8.
Proof.
  apply (multiplier_potential_rates V5_CONFIG "07:58" sample_group).
  apply (bool_decide_unpack _). vm_compute. exact I.
Defined.

(** ** The raw-data cleaner *)

Section cleaner_facts.
Context (strip : string -> string).

Lemma slice_2_22_length {A : Type} (row : list A) :
  (22 <= length row)%nat -> length (slice 2 22 row) = 20%nat.
Proof. intros H. unfold slice. rewrite length_drop, length_take. lia. Qed.

Lemma clean_row_length (row : list string) :
  (22 <= length row)%nat -> length (clean_row strip row) = 23%nat.
Proof.
  intros H. unfold clean_row.
  destruct (split_first_comma _) as [[d t] |]; simpl;
    by rewrite length_map, slice_2_22_length.
Qed.

(** The cleaned file is rectangular: after the 23-column header comes
    one 23-column line for every input row of at least 22 fields, in
    input order; shorter rows are skipped and no row is skipped for
    missing ball numbers. *)
Theorem output_lines_rectangular (rows : list (list string)) :
  output_lines strip rows =
    header :: map (clean_row strip)
                  (List.filter (fun row => (22 <=? length row)%nat) rows)
  /\ Forall (fun line => length line = 23%nat) (output_lines strip rows).
Proof.
  assert (G : forall acc,
    foldl (fun output_lines row =>
             if (22 <=? length row)%nat then
               let balls := map (clean_field strip) (slice 2 22 row) in
               if (length balls =? 20)%nat
               then output_lines ++ [clean_row strip row]
               else output_lines
             else output_lines) acc rows
    = acc ++ map (clean_row strip)
               (List.filter (fun row => (22 <=? length row)%nat) rows)).
  { induction rows as [| row rows IH]; intros acc; [by rewrite app_nil_r |].
    cbn [foldl List.filter]. rewrite IH.
    destruct (Nat.leb_spec 22 (length row)) as [Hlen | _]; [| done].
    cbv zeta. rewrite length_map, slice_2_22_length by done.
    cbn [Nat.eqb map]. by rewrite <- app_assoc. }
  assert (E : output_lines strip rows =
              header :: map (clean_row strip)
                          (List.filter (fun row => (22 <=? length row)%nat) rows)).
  { unfold output_lines. by rewrite G. }
  split; [exact E |]. rewrite E. constructor; [reflexivity |].
  apply Forall_forall. intros line Hline.
  apply list_elem_of_In, in_map_iff in Hline as (row & <- & Hrow).
  apply filter_In in Hrow as [_ Hlen]. apply clean_row_length.
  by apply Nat.leb_le.
Qed.
End cleaner_facts.

(** ** When the window score vanishes *)

Lemma filter_length_zero {A : Type} (P : A -> bool) (l : list A) :
  length (List.filter P l) = 0%nat <-> forall x, x ∈ l -> P x = false.
Proof.
  induction l as [| x l IH]; simpl.
  - split; [intros _ y Hy; by apply elem_of_nil in Hy | done].
  - destruct (P x) eqn:E; simpl.
    + split; [done |]. intros H. specialize (H x ltac:(apply elem_of_cons; by left)).
      congruence.
    + rewrite IH. split.
      * intros H y Hy. apply elem_of_cons in Hy as [-> | Hy]; auto.
      * intros H y Hy. apply H, elem_of_cons. by right.
Qed.

Lemma quarter_threshold (n c : nat) :
  Qle_bool (QofN n * (1 # 4)) (QofN c) = false <-> (4 * c < n)%nat.
Proof.
  rewrite Qle_bool_false. unfold QofN, Qlt, Qmult, inject_Z. cbn [Qnum Qden].
  rewrite Pos.mul_1_l. split; intros; lia.
Qed.

Lemma two_fifths_threshold (n c : nat) :
  Qle_bool (QofN n * (2 # 5)) (QofN c) = true -> (n <= 4 * c)%nat.
Proof.
  rewrite Qle_bool_iff. unfold QofN, Qle, Qmult, inject_Z. cbn [Qnum Qden].
  rewrite Pos.mul_1_l. intros; lia.
Qed.

(** For a non-empty window the consistency score is 0 exactly when no
    number occurs in at least a quarter of the draws. *)
Theorem window_consistency_zero (draws_list : list (list Z)) :
  draws_list <> [] ->
  (_calculate_window_consistency_v5 draws_list == 0)%Q
  <-> forall k, (4 * occurrences k (concat draws_list) < length draws_list)%nat.
Proof.
  intros Hne. unfold _calculate_window_consistency_v5.
  destruct draws_list as [| d ds]; [done |].
  set (draws := d :: ds) in *. set (n := length draws).
  set (c := Counter (concat draws)).
  set (v := length (List.filter _ (map snd c))).
  set (s := length (List.filter (fun count => Qle_bool (QofN n * (1 # 4)) (QofN count))
                                (map snd c))).
  assert (Hs : s = 0%nat <->
               forall k, (4 * occurrences k (concat draws) < n)%nat).
  { unfold s. rewrite filter_length_zero. split.
    - intros H k. destruct (decide (k ∈ concat draws)) as [Hk | Hk].
      + apply quarter_threshold, H. rewrite <- Counter_get.
        change (map snd c) with (c.*2).
        apply list_elem_of_fmap. exists (k, counter_get c k). split; [done |].
        by apply counter_get_elem_of, Counter_elem_of_keys.
      + destruct (Nat.eq_0_gt_0_cases (occurrences k (concat draws))) as [-> | Hpos].
        * unfold n. simpl. lia.
        * by apply occurrences_pos in Hpos.
    - intros H x Hx. change (map snd c) with (c.*2) in Hx.
      apply list_elem_of_fmap in Hx as ([k m] & -> & Hin).
      apply Counter_entry in Hin as [-> _]. apply quarter_threshold, H. }
  assert (Hv : (v <= s)%nat).
  { unfold v, s. generalize (map snd c). intros l.
    induction l as [| x l IH]; simpl; [lia |].
    destruct (Qle_bool (QofN n * (2 # 5)) (QofN x)) eqn:E1;
      destruct (Qle_bool (QofN n * (1 # 4)) (QofN x)) eqn:E2; simpl; try lia.
    apply two_fifths_threshold in E1. apply quarter_threshold in E2. lia. }
  rewrite <- Hs. destruct c as [| e c'] eqn:Ec.
  - assert (s = 0%nat) as -> by done. split; [done | intros _; reflexivity].
  - set (len := length (e :: c')).
    assert (Hlen : (0 < QofN len)%Q) by (apply QofN_pos; unfold len; simpl; lia).
    split.
    + intros H0. destruct (Nat.eq_0_gt_0_cases s) as [? | Hpos]; [done |]. exfalso.
      assert (Hx : (0 < QofN (v * 2 + s) / QofN len * 100)%Q).
      { apply Qmult_lt_0_compat; [| reflexivity].
        apply Qlt_shift_div_l; [done |]. rewrite Qmult_0_l. apply QofN_pos. lia. }
      destruct (Q.min_spec (QofN (v * 2 + s) / QofN len * 100) 100) as [[_ E] | [_ E]];
        rewrite E in H0; [rewrite H0 in Hx |]; discriminate.
    + intros ->. assert (v = 0%nat) as -> by lia. reflexivity.
Qed.

Lemma window_consistency_zero_witness :
  (_calculate_window_consistency_v5 spread_window == 0)%Q
  <-> forall k, (4 * occurrences k (concat spread_window) < length spread_window)%nat.
Proof. apply (window_consistency_zero spread_window). discriminate. Defined.
